(** * SceneManager: texture registry, material table, transform compositor
      and uniform bridge of the CS330 scene renderer

    A shallow embedding of [Source/SceneManager.cpp].  Member functions
    become functions on an explicit [SceneManager] state; calls into
    OpenGL, stb_image and [std::cout] are recorded, in program order, in a
    trace; an access outside an array is undefined behaviour in C++ and is
    the [Fault] outcome here.  [float] is IEEE 754 binary32, computed with
    the Standard Library's [SpecFloat]; GLM's functions are written out at
    that type.  The scene script ([PrepareScene], [RenderScene]) drives the
    mesh provider between the calls modelled here and is left out. *)

From Stdlib Require Import ZArith Lia.
From Stdlib Require Import Floats.SpecFloat.
From stdpp Require Import base option list strings pretty gmap.

Local Open Scope Z_scope.

(** ** Outcomes of a C++ call *)

Module Outcome.

(** [Ok a]: the call returns [a].  [Fault]: the call reaches undefined
    behaviour, an array access outside the array's bounds or a null
    pointer dereference.  [OutOfFuel]: the loop budget of the model ran
    out (shown below never to happen). *)
Inductive Result (A : Type) : Type :=
| Ok (a : A)
| Fault
| OutOfFuel.

Arguments Ok {A} a.
Arguments Fault {A}.
Arguments OutOfFuel {A}.

Definition bind {A B} (r : Result A) (k : A -> Result B) : Result B :=
  match r with
  | Ok a => k a
  | Fault => Fault
  | OutOfFuel => OutOfFuel
  end.

Definition of_option {A} (o : option A) : Result A :=
  match o with
  | Some a => Ok a
  | None => Fault
  end.

(** [while (cond) body] with a budget of loop tests. *)
Fixpoint while {S : Type} (fuel : nat) (cond : S -> bool)
         (body : S -> Result S) (s : S) : Result S :=
  match fuel with
  | O => OutOfFuel
  | Datatypes.S fuel' =>
      if cond s then bind (body s) (while fuel' cond body) else Ok s
  end.

End Outcome.
Import Outcome.

#[export] Instance Result_ret : MRet Result := @Ok.
#[export] Instance Result_bind : MBind Result := fun A B k r => Outcome.bind r k.

(** ** Machine integers *)

Module Int.

(** [unsigned int] / [GLuint] / [uint32_t]: values modulo 2^32. *)
Definition u32 (z : Z) : Z := z mod 2 ^ 32.

(** [int]: the 32-bit two's-complement reading of a value. *)
Definition i32 (z : Z) : Z := (z + 2 ^ 31) mod 2 ^ 32 - 2 ^ 31.

End Int.

(** ** IEEE 754 binary32, the C++ [float] *)

Module F32.

Definition float : Type := spec_float.

Definition prec : Z := 24.
Definition emax : Z := 128.

Definition add : float -> float -> float := SFadd prec emax.
Definition sub : float -> float -> float := SFsub prec emax.
Definition mul : float -> float -> float := SFmul prec emax.
Definition div : float -> float -> float := SFdiv prec emax.
Definition sqrt : float -> float := SFsqrt prec emax.

(** An integer literal such as [1.0f]. *)
Definition of_Z (z : Z) : float := binary_normalize prec emax z 0 false.

Definition zero : float := S754_zero false.
Definition one : float := Eval vm_compute in of_Z 1.

(** A decimal literal [n/d] such as [0.5f], correctly rounded. *)
Definition lit (n d : Z) : float := div (of_Z n) (of_Z d).

End F32.

Abbreviation float := F32.float.

(** The C math library functions the transform code reaches through GLM. *)
Class Libm := {
  cosf : float -> float;
  sinf : float -> float
}.

(** ** The GLM functions the scene manager calls

    GLM is a header-only template library; these are its definitions at
    [T = float] ([glm/ext/matrix_transform.inl], [glm/gtx/transform.inl],
    [glm/detail/type_mat4x4.inl], [glm/detail/func_geometric.inl]).
    A [mat4] is four columns, [m[c][r]] being row [r] of column [c]. *)

Module Glm.

Record vec2 := Vec2 { x2 : float; y2 : float }.
Record vec3 := Vec3 { x3 : float; y3 : float; z3 : float }.
Record vec4 := Vec4 { x4 : float; y4 : float; z4 : float; w4 : float }.
Record mat4 := Mat4 { col0 : vec4; col1 : vec4; col2 : vec4; col3 : vec4 }.

(** [v * s] and [a + b] on [vec4], [s * v] on [vec3]. *)
Definition vec4_scale (v : vec4) (s : float) : vec4 :=
  Vec4 (F32.mul (x4 v) s) (F32.mul (y4 v) s) (F32.mul (z4 v) s) (F32.mul (w4 v) s).

Definition vec4_add (a b : vec4) : vec4 :=
  Vec4 (F32.add (x4 a) (x4 b)) (F32.add (y4 a) (y4 b))
       (F32.add (z4 a) (z4 b)) (F32.add (w4 a) (w4 b)).

Definition scale_vec3 (s : float) (v : vec3) : vec3 :=
  Vec3 (F32.mul s (x3 v)) (F32.mul s (y3 v)) (F32.mul s (z3 v)).

Definition vec3_scale (v : vec3) (s : float) : vec3 :=
  Vec3 (F32.mul (x3 v) s) (F32.mul (y3 v) s) (F32.mul (z3 v) s).

(** [mat4(1.0f)] *)
Definition identity : mat4 :=
  Mat4 (Vec4 F32.one F32.zero F32.zero F32.zero)
       (Vec4 F32.zero F32.one F32.zero F32.zero)
       (Vec4 F32.zero F32.zero F32.one F32.zero)
       (Vec4 F32.zero F32.zero F32.zero F32.one).

(** [glm::radians]: [degrees * 0.01745329251994329576923690768489f]. *)
Definition deg_to_rad : float := S754_finite false 9370165 (-29).

Definition radians (degrees : float) : float := F32.mul degrees deg_to_rad.

(** [glm::dot], [glm::inversesqrt] and [glm::normalize] on [vec3]. *)
Definition dot (a b : vec3) : float :=
  F32.add (F32.add (F32.mul (x3 a) (x3 b)) (F32.mul (y3 a) (y3 b)))
          (F32.mul (z3 a) (z3 b)).

Definition inversesqrt (x : float) : float := F32.div F32.one (F32.sqrt x).

Definition normalize (v : vec3) : vec3 := vec3_scale v (inversesqrt (dot v v)).

(** [glm::scale(m, v)] *)
Definition scale_m (m : mat4) (v : vec3) : mat4 :=
  Mat4 (vec4_scale (col0 m) (x3 v))
       (vec4_scale (col1 m) (y3 v))
       (vec4_scale (col2 m) (z3 v))
       (col3 m).

(** [glm::translate(m, v)] *)
Definition translate_m (m : mat4) (v : vec3) : mat4 :=
  Mat4 (col0 m) (col1 m) (col2 m)
       (vec4_add
          (vec4_add
             (vec4_add (vec4_scale (col0 m) (x3 v)) (vec4_scale (col1 m) (y3 v)))
             (vec4_scale (col2 m) (z3 v)))
          (col3 m)).

(** [glm::rotate(m, angle, v)] *)
Definition rotate_m `{Libm} (m : mat4) (angle : float) (v : vec3) : mat4 :=
  let a := angle in
  let c := cosf a in
  let s := sinf a in
  let axis := normalize v in
  let temp := scale_vec3 (F32.sub F32.one c) axis in
  let r00 := F32.add c (F32.mul (x3 temp) (x3 axis)) in
  let r01 := F32.add (F32.mul (x3 temp) (y3 axis)) (F32.mul s (z3 axis)) in
  let r02 := F32.sub (F32.mul (x3 temp) (z3 axis)) (F32.mul s (y3 axis)) in
  let r10 := F32.sub (F32.mul (y3 temp) (x3 axis)) (F32.mul s (z3 axis)) in
  let r11 := F32.add c (F32.mul (y3 temp) (y3 axis)) in
  let r12 := F32.add (F32.mul (y3 temp) (z3 axis)) (F32.mul s (x3 axis)) in
  let r20 := F32.add (F32.mul (z3 temp) (x3 axis)) (F32.mul s (y3 axis)) in
  let r21 := F32.sub (F32.mul (z3 temp) (y3 axis)) (F32.mul s (x3 axis)) in
  let r22 := F32.add c (F32.mul (z3 temp) (z3 axis)) in
  let lin p q r :=
    vec4_add (vec4_add (vec4_scale (col0 m) p) (vec4_scale (col1 m) q))
             (vec4_scale (col2 m) r) in
  Mat4 (lin r00 r01 r02) (lin r10 r11 r12) (lin r20 r21 r22) (col3 m).

(** The one-argument forms of [glm/gtx/transform.hpp] start from the
    identity. *)
Definition scale (v : vec3) : mat4 := scale_m identity v.
Definition translate (v : vec3) : mat4 := translate_m identity v.
Definition rotate `{Libm} (angle : float) (v : vec3) : mat4 :=
  rotate_m identity angle v.

(** [mat4 * mat4]: column [j] of the product is the combination of the
    left factor's columns by the entries of the right factor's
    column [j]. *)
Definition mul_col (m1 : mat4) (b : vec4) : vec4 :=
  vec4_add
    (vec4_add
       (vec4_add (vec4_scale (col0 m1) (x4 b)) (vec4_scale (col1 m1) (y4 b)))
       (vec4_scale (col2 m1) (z4 b)))
    (vec4_scale (col3 m1) (w4 b)).

Definition mul (m1 m2 : mat4) : mat4 :=
  Mat4 (mul_col m1 (col0 m2)) (mul_col m1 (col1 m2))
       (mul_col m1 (col2 m2)) (mul_col m1 (col3 m2)).

End Glm.

Infix "*m" := Glm.mul (at level 40, left associativity).

(** ** Calls that leave the program: OpenGL, stb_image, the console *)

Module Ext.

Inductive GLenum :=
| GL_TEXTURE_2D | GL_TEXTURE_WRAP_S | GL_TEXTURE_WRAP_T | GL_REPEAT
| GL_TEXTURE_MIN_FILTER | GL_TEXTURE_MAG_FILTER | GL_LINEAR
| GL_RGB8 | GL_RGB | GL_RGBA8 | GL_RGBA | GL_UNSIGNED_BYTE.

(** What a successful [stbi_load] hands back through its out-parameters. *)
Record Image := { width : Z; height : Z; colorChannels : Z }.

Inductive Event :=
| stbi_set_flip_vertically_on_load (flag : bool)
| stbi_load (filename : string)
| stbi_image_free
| glGenTextures (name : Z)
| glBindTexture (target : GLenum) (texture : Z)
| glTexParameteri (target pname param : GLenum)
| glTexImage2D (target : GLenum) (level : Z) (internalformat : GLenum)
               (w h border : Z) (format type : GLenum)
| glGenerateMipmap (target : GLenum)
| glActiveTexture (unit : Z)
| glDeleteTextures (name : Z)
| cout_loaded (filename : string) (w h channels : Z)
| cout_not_implemented (channels : Z)
| cout_could_not_load (filename : string).

(** The texture names in use after a sequence of calls: [glGenTextures]
    reserves a name, [glDeleteTextures] frees it and ignores a name
    that is not in use. *)
Definition live_step (live : gset Z) (e : Event) : gset Z :=
  match e with
  | glGenTextures n => {[ n ]} ∪ live
  | glDeleteTextures n => live ∖ {[ n ]}
  | _ => live
  end.

Definition live_textures (calls : list Event) : gset Z :=
  foldl live_step ∅ calls.

End Ext.
Import Ext.

(** ** The shader program's uniforms, as [ShaderManager] sets them *)

Module ShaderManager.

Inductive Uniform :=
| UInt (v : Z)
| UFloat (v : float)
| UVec2 (v : Glm.vec2)
| UVec3 (v : Glm.vec3)
| UVec4 (v : Glm.vec4)
| UMat4 (v : Glm.mat4)
| USampler2D (slot : Z).

Abbreviation t := (gmap string Uniform).

Definition setIntValue (name : string) (v : Z) (sh : t) : t := <[name := UInt v]> sh.
Definition setFloatValue (name : string) (v : float) (sh : t) : t := <[name := UFloat v]> sh.
Definition setVec2Value (name : string) (v : Glm.vec2) (sh : t) : t := <[name := UVec2 v]> sh.
Definition setVec3Value (name : string) (v : Glm.vec3) (sh : t) : t := <[name := UVec3 v]> sh.
Definition setVec4Value (name : string) (v : Glm.vec4) (sh : t) : t := <[name := UVec4 v]> sh.
Definition setMat4Value (name : string) (v : Glm.mat4) (sh : t) : t := <[name := UMat4 v]> sh.
Definition setSampler2DValue (name : string) (slot : Z) (sh : t) : t :=
  <[name := USampler2D slot]> sh.

(** [setBoolValue] hands the flag to the program as the [int] 0 or 1. *)
Definition setBoolValue (name : string) (v : bool) (sh : t) : t :=
  <[name := UInt (if v then 1 else 0)]> sh.

End ShaderManager.
Import ShaderManager.

(** ** Data declared in SceneManager.h *)

(** Modelled from the spec: the struct of one [m_textureIDs] entry,
    declared in SceneManager.h, which is not among the sources.  The spec's
    TextureRecord is [{tag, gpuId, slotIndex}] with the slot index being the
    position in the array; the code passes [&ID] to [glDeleteTextures], so
    [ID] is an unsigned 32-bit GL name. *)
Module TEXTURE_INFO.
Record t := Make { tag : string; ID : Z }.
Definition set_tag (v : string) (r : t) : t := Make v (ID r).
Definition set_ID (v : Z) (r : t) : t := Make (tag r) v.
End TEXTURE_INFO.

(** Modelled from the spec: the material struct, declared in
    SceneManager.h, which is not among the sources; the fields are the
    spec's Material fields and the ones the code reads and writes. *)
Module OBJECT_MATERIAL.
Record t := Make {
  tag : string;
  ambientColor : Glm.vec3;
  ambientStrength : float;
  diffuseColor : Glm.vec3;
  specularColor : Glm.vec3;
  shininess : float
}.
End OBJECT_MATERIAL.

(** Modelled from the spec: the bound of the [m_textureIDs] array, declared
    in SceneManager.h, which is not among the sources.  The spec fixes the
    capacity at exactly 16 slots, and the constructor initialises entries
    0..15. *)
Definition TEXTURE_SLOTS : nat := 16.

(** Names of the uniforms (the globals of the anonymous namespace). *)
Definition g_ModelName : string := "model".
Definition g_ColorValueName : string := "objectColor".
Definition g_TextureValueName : string := "objectTexture".
Definition g_UseTextureName : string := "bUseTexture".
Definition g_UseLightingName : string := "bUseLighting".

(** ** The scene manager's state *)

(** [m_pShaderManager] is [None] for a NULL pointer and otherwise the
    uniforms of the program behind it.  [m_basicMeshes] belongs to the mesh
    provider and is left out.  [trace] is the sequence of outside calls made
    so far, oldest first. *)
Record SceneManager := {
  m_pShaderManager : option ShaderManager.t;
  m_textureIDs : list TEXTURE_INFO.t;
  m_loadedTextures : Z;
  m_objectMaterials : list OBJECT_MATERIAL.t;
  trace : list Event
}.

Definition with_shader (f : ShaderManager.t -> ShaderManager.t) (s : SceneManager) : SceneManager :=
  {| m_pShaderManager := f <$> m_pShaderManager s;
     m_textureIDs := m_textureIDs s;
     m_loadedTextures := m_loadedTextures s;
     m_objectMaterials := m_objectMaterials s;
     trace := trace s |}.

Definition with_textures (arr : list TEXTURE_INFO.t) (n : Z) (s : SceneManager) : SceneManager :=
  {| m_pShaderManager := m_pShaderManager s;
     m_textureIDs := arr;
     m_loadedTextures := n;
     m_objectMaterials := m_objectMaterials s;
     trace := trace s |}.

Definition push_material (m : OBJECT_MATERIAL.t) (s : SceneManager) : SceneManager :=
  {| m_pShaderManager := m_pShaderManager s;
     m_textureIDs := m_textureIDs s;
     m_loadedTextures := m_loadedTextures s;
     m_objectMaterials := m_objectMaterials s ++ [m];
     trace := trace s |}.

Definition emit (es : list Event) (s : SceneManager) : SceneManager :=
  {| m_pShaderManager := m_pShaderManager s;
     m_textureIDs := m_textureIDs s;
     m_loadedTextures := m_loadedTextures s;
     m_objectMaterials := m_objectMaterials s;
     trace := trace s ++ es |}.

(** [a[i]] and [a[i] = f(a[i])] on a C++ array or vector: outside
    [0 .. length-1] the behaviour is undefined. *)
Definition array_get {A} (a : list A) (i : Z) : Result A :=
  if bool_decide (0 <= i) then Outcome.of_option (a !! Z.to_nat i) else Fault.

Definition array_upd {A} (a : list A) (i : Z) (f : A -> A) : Result (list A) :=
  r ← array_get a i; Ok (<[Z.to_nat i := f r]> a).

(** ** Member functions *)

(** [SceneManager::SceneManager]: entries 0..15 get the tag ["/0"] and the
    ID [-1], which an unsigned field holds as 2^32 - 1. *)
Definition unset_texture : TEXTURE_INFO.t := TEXTURE_INFO.Make "/0" (Int.u32 (-1)).

Definition SceneManager_new (pShaderManager : option ShaderManager.t) : SceneManager :=
  {| m_pShaderManager := pShaderManager;
     m_textureIDs :=
       foldl (fun arr i => <[i := unset_texture]> arr)
             (replicate TEXTURE_SLOTS (TEXTURE_INFO.Make "" 0))
             (seq 0 16);
     m_loadedTextures := 0;
     m_objectMaterials := [];
     trace := [] |}.

(** The last three statements of [CreateGLTexture]: the two stores into
    [m_textureIDs[m_loadedTextures]] and the increment.  The stores are
    defined only below the array bound, so the increment that follows them
    cannot overflow. *)
Definition register_texture (textureID : Z) (tag : string) (s : SceneManager)
  : Result (bool * SceneManager) :=
  a1 ← array_upd (m_textureIDs s) (m_loadedTextures s) (TEXTURE_INFO.set_ID textureID);
  a2 ← array_upd a1 (m_loadedTextures s) (TEXTURE_INFO.set_tag tag);
  Ok (true, with_textures a2 (m_loadedTextures s + 1) s).

(** [SceneManager::CreateGLTexture].  [image] is what [stbi_load] returns
    for [filename] ([None] for a null pointer) and [name] is the texture
    name [glGenTextures] writes into [textureID]. *)
Definition CreateGLTexture (image : option Image) (name : Z)
           (filename tag : string) (s : SceneManager) : Result (bool * SceneManager) :=
  let s := emit [stbi_set_flip_vertically_on_load true; stbi_load filename] s in
  match image with
  | Some img =>
      let textureID := Int.u32 name in
      let s := emit [cout_loaded filename (width img) (height img) (colorChannels img);
                     glGenTextures textureID;
                     glBindTexture GL_TEXTURE_2D textureID;
                     glTexParameteri GL_TEXTURE_2D GL_TEXTURE_WRAP_S GL_REPEAT;
                     glTexParameteri GL_TEXTURE_2D GL_TEXTURE_WRAP_T GL_REPEAT;
                     glTexParameteri GL_TEXTURE_2D GL_TEXTURE_MIN_FILTER GL_LINEAR;
                     glTexParameteri GL_TEXTURE_2D GL_TEXTURE_MAG_FILTER GL_LINEAR] s in
      let finish s :=
        let s := emit [glGenerateMipmap GL_TEXTURE_2D;
                       stbi_image_free;
                       glBindTexture GL_TEXTURE_2D 0] s in
        register_texture textureID tag s in
      if colorChannels img =? 3 then
        finish (emit [glTexImage2D GL_TEXTURE_2D 0 GL_RGB8 (width img) (height img) 0
                                   GL_RGB GL_UNSIGNED_BYTE] s)
      else if colorChannels img =? 4 then
        finish (emit [glTexImage2D GL_TEXTURE_2D 0 GL_RGBA8 (width img) (height img) 0
                                   GL_RGBA GL_UNSIGNED_BYTE] s)
      else
        Ok (false, emit [cout_not_implemented (colorChannels img); stbi_image_free] s)
  | None =>
      Ok (false, emit [cout_could_not_load filename] s)
  end.

(** The [for (int i = 0; i < m_loadedTextures; i++)] loops of
    [BindGLTextures] and [DestroyGLTextures]; the loop state is [i] and
    the scene manager. *)
Definition for_loaded (body : Z -> SceneManager -> Result SceneManager)
           (s : SceneManager) : Result SceneManager :=
  r ← Outcome.while (S (Z.to_nat (m_loadedTextures s)))
        (fun st => fst st <? m_loadedTextures (snd st))
        (fun st => s' ← body (fst st) (snd st); Ok (fst st + 1, s'))
        (0, s);
  Ok (snd r).

(** [SceneManager::BindGLTextures]; the texture unit [GL_TEXTURE0 + i] is
    recorded as [i]. *)
Definition BindGLTextures (s : SceneManager) : Result SceneManager :=
  for_loaded
    (fun i s =>
       r ← array_get (m_textureIDs s) i;
       Ok (emit [glActiveTexture i; glBindTexture GL_TEXTURE_2D (TEXTURE_INFO.ID r)] s))
    s.

(** [SceneManager::DestroyGLTextures] *)
Definition DestroyGLTextures (s : SceneManager) : Result SceneManager :=
  for_loaded
    (fun i s =>
       r ← array_get (m_textureIDs s) i;
       Ok (emit [glDeleteTextures (TEXTURE_INFO.ID r)] s))
    s.

(** The locals of the two texture lookups: the result so far, [index] and
    [bFound]. *)
Record FindLocals := { result : Z; index : Z; bFound : bool }.

Definition find_cond (s : SceneManager) (l : FindLocals) : bool :=
  (index l <? m_loadedTextures s) && negb (bFound l).

Definition find_fuel (s : SceneManager) : nat := S (Z.to_nat (m_loadedTextures s)).

(** [SceneManager::FindTextureID]; the unsigned [ID] is converted to the
    [int] local. *)
Definition FindTextureID (tag : string) (s : SceneManager) : Result Z :=
  l ← Outcome.while (find_fuel s) (find_cond s)
        (fun l =>
           r ← array_get (m_textureIDs s) (index l);
           if String.eqb (TEXTURE_INFO.tag r) tag
           then Ok {| result := Int.i32 (TEXTURE_INFO.ID r); index := index l; bFound := true |}
           else Ok {| result := result l; index := index l + 1; bFound := bFound l |})
        {| result := -1; index := 0; bFound := false |};
  Ok (result l).

(** [SceneManager::FindTextureSlot] *)
Definition FindTextureSlot (tag : string) (s : SceneManager) : Result Z :=
  l ← Outcome.while (find_fuel s) (find_cond s)
        (fun l =>
           r ← array_get (m_textureIDs s) (index l);
           if String.eqb (TEXTURE_INFO.tag r) tag
           then Ok {| result := index l; index := index l; bFound := true |}
           else Ok {| result := result l; index := index l + 1; bFound := bFound l |})
        {| result := -1; index := 0; bFound := false |};
  Ok (result l).

(** [SceneManager::FindMaterial].  The reference parameter [material] is
    passed in and handed back with the return value; the five assignments
    of the match branch leave its [tag] alone. *)
Record MaterialLocals := {
  mindex : Z;
  mbFound : bool;
  material : OBJECT_MATERIAL.t
}.

Definition copy_material (src dst : OBJECT_MATERIAL.t) : OBJECT_MATERIAL.t :=
  OBJECT_MATERIAL.Make
    (OBJECT_MATERIAL.tag dst)
    (OBJECT_MATERIAL.ambientColor src)
    (OBJECT_MATERIAL.ambientStrength src)
    (OBJECT_MATERIAL.diffuseColor src)
    (OBJECT_MATERIAL.specularColor src)
    (OBJECT_MATERIAL.shininess src).

Definition FindMaterial (tag : string) (material0 : OBJECT_MATERIAL.t) (s : SceneManager)
  : Result (bool * OBJECT_MATERIAL.t) :=
  if Z.of_nat (length (m_objectMaterials s)) =? 0 then Ok (false, material0)
  else
    l ← Outcome.while (S (length (m_objectMaterials s)))
          (fun l => (mindex l <? Z.of_nat (length (m_objectMaterials s))) && negb (mbFound l))
          (fun l =>
             m ← array_get (m_objectMaterials s) (mindex l);
             if String.eqb (OBJECT_MATERIAL.tag m) tag
             then Ok {| mindex := mindex l; mbFound := true;
                        material := copy_material m (material l) |}
             else Ok {| mindex := mindex l + 1; mbFound := mbFound l;
                        material := material l |})
          {| mindex := 0; mbFound := false; material := material0 |};
    Ok (true, material l).

(** [SceneManager::SetTransformations] *)
Definition modelView `{Libm} (scaleXYZ : Glm.vec3)
           (XrotationDegrees YrotationDegrees ZrotationDegrees : float)
           (positionXYZ : Glm.vec3) : Glm.mat4 :=
  let scale := Glm.scale scaleXYZ in
  let rotationX :=
    Glm.rotate (Glm.radians XrotationDegrees) (Glm.Vec3 F32.one F32.zero F32.zero) in
  let rotationY :=
    Glm.rotate (Glm.radians YrotationDegrees) (Glm.Vec3 F32.zero F32.one F32.zero) in
  let rotationZ :=
    Glm.rotate (Glm.radians ZrotationDegrees) (Glm.Vec3 F32.zero F32.zero F32.one) in
  let translation := Glm.translate positionXYZ in
  translation *m rotationZ *m rotationY *m rotationX *m scale.

Definition SetTransformations `{Libm} (scaleXYZ : Glm.vec3)
           (XrotationDegrees YrotationDegrees ZrotationDegrees : float)
           (positionXYZ : Glm.vec3) (s : SceneManager) : SceneManager :=
  with_shader
    (setMat4Value g_ModelName
       (modelView scaleXYZ XrotationDegrees YrotationDegrees ZrotationDegrees positionXYZ))
    s.

(** [SceneManager::SetShaderColor]; [false] converts to the [int] 0. *)
Definition SetShaderColor (redColorValue greenColorValue blueColorValue alphaValue : float)
           (s : SceneManager) : SceneManager :=
  let currentColor := Glm.Vec4 redColorValue greenColorValue blueColorValue alphaValue in
  with_shader
    (fun sh => setVec4Value g_ColorValueName currentColor (setIntValue g_UseTextureName 0 sh))
    s.

(** [SceneManager::SetShaderTexture]; [true] converts to the [int] 1.  With
    a NULL shader manager the lookup is not made. *)
Definition SetShaderTexture (textureTag : string) (s : SceneManager) : Result SceneManager :=
  match m_pShaderManager s with
  | Some _ =>
      let s := with_shader (setIntValue g_UseTextureName 1) s in
      textureID ← FindTextureSlot textureTag s;
      Ok (with_shader (setSampler2DValue g_TextureValueName textureID) s)
  | None => Ok s
  end.

(** [SceneManager::SetTextureUVScale] *)
Definition SetTextureUVScale (u v : float) (s : SceneManager) : SceneManager :=
  with_shader (setVec2Value "UVscale" (Glm.Vec2 u v)) s.

(** [SceneManager::SetShaderMaterial]; the local [material] starts out
    [material0] (its fields are not initialised by the code).  The shader
    manager is dereferenced without a NULL test. *)
Definition SetShaderMaterial (materialTag : string) (material0 : OBJECT_MATERIAL.t)
           (s : SceneManager) : Result SceneManager :=
  if 0 <? Z.of_nat (length (m_objectMaterials s)) then
    '(bReturn, material) ← FindMaterial materialTag material0 s;
    if (bReturn : bool) then
      match m_pShaderManager s with
      | Some _ =>
          Ok (with_shader
                (fun sh =>
                   setFloatValue "material.shininess" (OBJECT_MATERIAL.shininess material)
                     (setVec3Value "material.specularColor" (OBJECT_MATERIAL.specularColor material)
                        (setVec3Value "material.diffuseColor" (OBJECT_MATERIAL.diffuseColor material)
                           (setFloatValue "material.ambientStrength"
                              (OBJECT_MATERIAL.ambientStrength material)
                              (setVec3Value "material.ambientColor"
                                 (OBJECT_MATERIAL.ambientColor material) sh)))))
                s)
      | None => Fault
      end
    else Ok s
  else Ok s.

(** [SceneManager::LoadSceneMaterials] *)
Definition gray (n d : Z) : Glm.vec3 := Glm.Vec3 (F32.lit n d) (F32.lit n d) (F32.lit n d).

Definition floorMaterial : OBJECT_MATERIAL.t :=
  OBJECT_MATERIAL.Make "floorMaterial" (gray 2 10) (F32.lit 5 10) (gray 8 10) (gray 1 1)
                       (F32.of_Z 32).
Definition deskMaterial : OBJECT_MATERIAL.t :=
  OBJECT_MATERIAL.Make "deskMaterial" (gray 3 10) (F32.lit 5 10)
                       (Glm.Vec3 (F32.lit 6 10) (F32.lit 3 10) (F32.lit 3 10)) (gray 5 10)
                       (F32.of_Z 16).
Definition keyboardMaterial : OBJECT_MATERIAL.t :=
  OBJECT_MATERIAL.Make "keyboardMaterial" (gray 2 10) (F32.lit 5 10) (gray 7 10) (gray 1 1)
                       (F32.of_Z 32).
Definition monitorMaterial : OBJECT_MATERIAL.t :=
  OBJECT_MATERIAL.Make "monitorMaterial" (gray 2 10) (F32.lit 5 10) (gray 9 10) (gray 1 1)
                       (F32.of_Z 128).
Definition screenMaterial : OBJECT_MATERIAL.t :=
  OBJECT_MATERIAL.Make "screenMaterial" (gray 1 10) (F32.lit 5 10) (gray 5 10) (gray 1 1)
                       (F32.of_Z 256).

Definition LoadSceneMaterials (s : SceneManager) : SceneManager :=
  push_material screenMaterial
    (push_material monitorMaterial
       (push_material keyboardMaterial
          (push_material deskMaterial
             (push_material floorMaterial s)))).

(** [SceneManager::LoadSceneTextures], for the five files decoding to
    [images] and the driver handing out [names]; the [bool] each load
    returns is overwritten unread. *)
Definition load_texture (images : string -> option Image) (names : nat -> Z)
           (k : nat) (file tag : string) (s : SceneManager) : Result SceneManager :=
  r ← CreateGLTexture (images file) (names k) file tag s; Ok (snd r).

Definition LoadSceneTextures (images : string -> option Image) (names : nat -> Z)
           (s : SceneManager) : Result SceneManager :=
  s ← load_texture images names 0 "textures/Wood-Floor_texture2.jpg" "floor" s;
  s ← load_texture images names 1 "textures/Monitor-Screen_texture.jpg" "screen" s;
  s ← load_texture images names 2 "textures/Desk_texture2.jpg" "desk" s;
  s ← load_texture images names 3 "textures/Keyboard_texture.jpg" "keyboard" s;
  s ← load_texture images names 4 "textures/glass_texture.jpg" "glass" s;
  BindGLTextures s.

(** ** Well-formed registries and the states used as examples *)

(** The array has its 16 entries and the count of loaded textures lies
    within it. *)
Definition registry_ok (s : SceneManager) : Prop :=
  length (m_textureIDs s) = TEXTURE_SLOTS /\
  0 <= m_loadedTextures s <= Z.of_nat TEXTURE_SLOTS.

(** The tags of the loaded textures, in slot order. *)
Definition loaded_tags (s : SceneManager) : list string :=
  TEXTURE_INFO.tag <$> take (Z.to_nat (m_loadedTextures s)) (m_textureIDs s).

(** A 2048x2048 RGB image, a grey-scale image, and a driver that numbers
    textures from 1. *)
Definition rgb_image : Image := {| width := 2048; height := 2048; colorChannels := 3 |}.
Definition grey_image : Image := {| width := 512; height := 512; colorChannels := 1 |}.

Definition all_rgb (file : string) : option Image := Some rgb_image.
Definition count_from_1 (k : nat) : Z := Z.of_nat k + 1.

(** Repeated loads of one RGB image under tags [t0], [t1], ... *)
Fixpoint load_many (k : nat) (s : SceneManager) : Result SceneManager :=
  match k with
  | O => Ok s
  | S k' =>
      s' ← load_many k' s;
      r ← CreateGLTexture (Some rgb_image) (count_from_1 k') "textures/t.jpg"
            ("t" +:+ pretty (Z.of_nat k')) s';
      Ok (snd r)
  end.

(** A textbook stand-in for the math library, exact at zero. *)
Definition taylor_libm : Libm := {|
  cosf x := F32.sub F32.one (F32.div (F32.mul x x) (F32.of_Z 2));
  sinf x := x
|}.

Definition unwrap (r : Result SceneManager) : SceneManager :=
  match r with
  | Ok s => s
  | _ => SceneManager_new None
  end.

(** A manager with a shader program, after two and after sixteen loads,
    and one whose only texture is tagged ["floor"]. *)
Definition fresh : SceneManager := SceneManager_new (Some ∅).
Definition two_loaded : SceneManager := unwrap (load_many 2 fresh).
Definition sixteen_loaded : SceneManager := unwrap (load_many 16 fresh).
Definition floor_loaded : SceneManager :=
  unwrap (load_texture all_rgb count_from_1 0 "textures/Wood-Floor_texture2.jpg" "floor" fresh).

(** A material variable before anything is assigned to it, and the scene's
    material table. *)
Definition blank_material : OBJECT_MATERIAL.t :=
  OBJECT_MATERIAL.Make "" (gray 0 1) F32.zero (gray 0 1) (gray 0 1) F32.zero.
Definition scene_materials : SceneManager := LoadSceneMaterials fresh.

(** The value the shader program holds for a uniform, if there is a
    program and the uniform has been set. *)
Definition uniform (name : string) (s : SceneManager) : option Uniform :=
  sh ← m_pShaderManager s; sh !! name.

(** ** Texture units

    What the recorded calls leave bound: [glActiveTexture] selects a unit,
    [glBindTexture GL_TEXTURE_2D] binds a texture to the selected unit, and
    [glDeleteTextures] reverts every binding of the deleted name to 0.  A
    unit without an entry holds texture 0; unit 0 is selected at first. *)
Module GL.

Record Units := { active : Z; bound : gmap Z Z }.

Definition initial : Units := {| active := 0; bound := ∅ |}.

Definition unbind (n t : Z) : Z := if bool_decide (t = n) then 0 else t.

Definition step (u : Units) (e : Event) : Units :=
  match e with
  | glActiveTexture i => {| active := i; bound := bound u |}
  | glBindTexture GL_TEXTURE_2D t =>
      {| active := active u; bound := <[active u := t]> (bound u) |}
  | glDeleteTextures n => {| active := active u; bound := unbind n <$> bound u |}
  | _ => u
  end.

Definition units (calls : list Event) : Units := foldl step initial calls.

Definition texture_on (unit : Z) (calls : list Event) : Z :=
  default 0 (bound (units calls) !! unit).

End GL.

(** The GL names of the loaded textures, and the registries whose live
    textures are all registered. *)
Definition loaded_ids (s : SceneManager) : gset Z :=
  list_to_set (TEXTURE_INFO.ID <$> take (Z.to_nat (m_loadedTextures s)) (m_textureIDs s)).

Definition no_stray_textures (s : SceneManager) : Prop :=
  live_textures (trace s) ⊆ loaded_ids s.

(** [SceneManager::SetupSceneLights]; lights 3 and 4 are commented out in
    the source. *)
Definition vec3_lit (x y z : Z * Z) : Glm.vec3 :=
  Glm.Vec3 (F32.lit (fst x) (snd x)) (F32.lit (fst y) (snd y)) (F32.lit (fst z) (snd z)).

Definition set_light (i : string) (position diffuseColor specularColor : Glm.vec3)
           (focalStrength specularIntensity : float) (sh : ShaderManager.t) : ShaderManager.t :=
  setFloatValue ("lightSources[" +:+ i +:+ "].specularIntensity") specularIntensity
    (setFloatValue ("lightSources[" +:+ i +:+ "].focalStrength") focalStrength
       (setVec3Value ("lightSources[" +:+ i +:+ "].specularColor") specularColor
          (setVec3Value ("lightSources[" +:+ i +:+ "].diffuseColor") diffuseColor
             (setVec3Value ("lightSources[" +:+ i +:+ "].position") position sh)))).

Definition SetupSceneLights (s : SceneManager) : SceneManager :=
  match m_pShaderManager s with
  | None => s
  | Some _ =>
      with_shader
        (fun sh =>
           let sh := setBoolValue "bUseLighting" true sh in
           let sh := setVec3Value "globalAmbientColor" (vec3_lit (2, 10) (2, 10) (2, 10)) sh in
           let sh := set_light "0" (vec3_lit (0, 1) (12, 1) (0, 1))
                               (vec3_lit (4, 10) (4, 10) (4, 10))
                               (vec3_lit (7, 1) (7, 1) (7, 1))
                               (F32.of_Z 32) (F32.lit 2 10) sh in
           let sh := set_light "1" (vec3_lit (-98, 10) (2, 1) (3, 1))
                               (vec3_lit (1, 1) (85, 100) (5, 10))
                               (vec3_lit (1, 1) (85, 100) (5, 10))
                               (F32.of_Z 32) (F32.lit 2 10) sh in
           set_light "2" (vec3_lit (8, 1) (2, 1) (3, 1))
                     (vec3_lit (6, 10) (8, 10) (1, 1))
                     (vec3_lit (6, 10) (8, 10) (1, 1))
                     (F32.of_Z 32) (F32.lit 2 10) sh)
        s
  end.


(** ** The transform as the specification words it

    [Translate · RotateZ · RotateY · RotateX · Scale], each rotation built
    from its angle converted from degrees to radians, about the X, Y and Z
    axis. *)
Module Spec.

Definition axisX : Glm.vec3 := Glm.Vec3 F32.one F32.zero F32.zero.
Definition axisY : Glm.vec3 := Glm.Vec3 F32.zero F32.one F32.zero.
Definition axisZ : Glm.vec3 := Glm.Vec3 F32.zero F32.zero F32.one.

Definition Scale (v : Glm.vec3) : Glm.mat4 := Glm.scale v.
Definition Translate (v : Glm.vec3) : Glm.mat4 := Glm.translate v.
Definition RotateX `{Libm} (degrees : float) : Glm.mat4 :=
  Glm.rotate (Glm.radians degrees) axisX.
Definition RotateY `{Libm} (degrees : float) : Glm.mat4 :=
  Glm.rotate (Glm.radians degrees) axisY.
Definition RotateZ `{Libm} (degrees : float) : Glm.mat4 :=
  Glm.rotate (Glm.radians degrees) axisZ.

Definition Compose `{Libm} (scale rotationDegrees translation : Glm.vec3) : Glm.mat4 :=
  Translate translation
    *m RotateZ (Glm.z3 rotationDegrees)
    *m RotateY (Glm.y3 rotationDegrees)
    *m RotateX (Glm.x3 rotationDegrees)
    *m Scale scale.

End Spec.

(** * Properties *)

(** ** Loops *)

Section While.
Context {S : Type} (cond : S -> bool) (body : S -> Result S).

Lemma while_exit fuel s :
  cond s = false -> Outcome.while (Datatypes.S fuel) cond body s = Ok s.
Proof. intros Hc. simpl. now rewrite Hc. Qed.

Lemma while_step fuel s s' :
  cond s = true -> body s = Ok s' ->
  Outcome.while (Datatypes.S fuel) cond body s = Outcome.while fuel cond body s'.
Proof. intros Hc Hb. simpl. now rewrite Hc, Hb. Qed.

(** A linear search: the loop state is [pending i] while entries
    [0..i-1] have been rejected, and [hit i x] once entry [i] is
    accepted.  The loop stops at the first accepted entry of [l], or
    at the end of [l]. *)
Context {A : Type} (P : A -> Prop) `{!forall x, Decision (P x)}.
Context (l : list A) (pending : nat -> S) (hit : nat -> A -> S).
Hypothesis cond_pending : forall i, (i < length l)%nat -> cond (pending i) = true.
Hypothesis cond_end : cond (pending (length l)) = false.
Hypothesis cond_hit : forall i x, cond (hit i x) = false.
Hypothesis body_pending : forall i x,
  l !! i = Some x ->
  body (pending i) = Ok (if decide (P x) then hit i x else pending (Datatypes.S i)).

Lemma while_search n : forall i fuel,
  (n = length l - i)%nat -> (i <= length l)%nat -> (n < fuel)%nat ->
  Outcome.while fuel cond body (pending i) =
  Ok (match list_find P (drop i l) with
      | Some (j, x) => hit (i + j) x
      | None => pending (length l)
      end).
Proof.
  induction n as [|n IH]; intros i fuel Hn Hi Hfuel.
  - assert (i = length l) as -> by lia.
    destruct fuel as [|fuel]; [lia|].
    rewrite while_exit by assumption.
    now rewrite drop_all.
  - destruct fuel as [|fuel]; [lia|].
    destruct (lookup_lt_is_Some_2 l i) as [x Hx]; [lia|].
    rewrite (while_step fuel _ _ (cond_pending i ltac:(lia)) (body_pending i x Hx)).
    rewrite (drop_S l x i Hx). simpl.
    destruct (decide (P x)) as [HP|HP].
    + destruct fuel as [|fuel]; [lia|].
      rewrite while_exit by apply cond_hit.
      now rewrite Nat.add_0_r.
    + rewrite (IH (Datatypes.S i) fuel) by lia.
      destruct (list_find P (drop (Datatypes.S i) l)) as [[j y]|]; simpl; [|done].
      now rewrite Nat.add_succ_r.
Qed.

End While.

(** A tag is not in a given list of tags: decided by evaluation. *)
Ltac not_member :=
  match goal with
  | |- ?x ∉ ?l => apply (bool_decide_eq_false_1 (x ∈ l)); vm_compute; reflexivity
  end.

(** ** Array access *)

Lemma array_get_lookup {A} (a : list A) (i : nat) (x : A) :
  a !! i = Some x -> array_get a (Z.of_nat i) = Ok x.
Proof.
  intros Hx. unfold array_get.
  rewrite bool_decide_eq_true_2 by lia.
  now rewrite Nat2Z.id, Hx.
Qed.

Lemma array_get_lookup_Z {A} (a : list A) (i : Z) (x : A) :
  0 <= i -> a !! Z.to_nat i = Some x -> array_get a i = Ok x.
Proof.
  intros Hi Hx. unfold array_get.
  rewrite bool_decide_eq_true_2 by lia.
  now rewrite Hx.
Qed.

Lemma array_get_outside {A} (a : list A) (i : Z) :
  Z.of_nat (length a) <= i -> array_get a i = Fault.
Proof.
  intros Hi. unfold array_get.
  rewrite bool_decide_eq_true_2 by lia.
  now rewrite lookup_ge_None_2 by lia.
Qed.

Lemma string_eqb_decide (a b : string) {T} (x y : T) :
  (if String.eqb a b then x else y) = (if decide (a = b) then x else y).
Proof.
  destruct (String.eqb_spec a b), (decide (a = b)); congruence.
Qed.

(** ** Texture lookups as a search of the loaded prefix *)

Section TextureLookup.
Context (s : SceneManager) (tag : string).
Hypothesis Hok : registry_ok s.

Lemma loaded_length :
  length (take (Z.to_nat (m_loadedTextures s)) (m_textureIDs s))
  = Z.to_nat (m_loadedTextures s).
Proof.
  destruct Hok as [Hlen Hm]. rewrite length_take, Hlen. unfold TEXTURE_SLOTS in *. lia.
Qed.

Lemma find_cond_pending res i :
  (i < length (take (Z.to_nat (m_loadedTextures s)) (m_textureIDs s)))%nat ->
  find_cond s {| result := res; index := Z.of_nat i; bFound := false |} = true.
Proof.
  rewrite loaded_length. intros Hi. unfold find_cond. simpl.
  rewrite andb_true_r. apply Z.ltb_lt. lia.
Qed.

Lemma find_cond_end res :
  find_cond s {| result := res;
                 index := Z.of_nat (length (take (Z.to_nat (m_loadedTextures s))
                                                 (m_textureIDs s)));
                 bFound := false |} = false.
Proof.
  rewrite loaded_length. unfold find_cond. simpl.
  rewrite andb_true_r. apply Z.ltb_ge. destruct Hok as [_ Hm]. lia.
Qed.

Lemma FindTextureID_search :
  FindTextureID tag s =
  Ok (match list_find (fun r => TEXTURE_INFO.tag r = tag)
                      (take (Z.to_nat (m_loadedTextures s)) (m_textureIDs s)) with
      | Some (_, r) => Int.i32 (TEXTURE_INFO.ID r)
      | None => -1
      end).
Proof.
  unfold FindTextureID.
  erewrite (while_search (find_cond s) _ (fun r => TEXTURE_INFO.tag r = tag)
              (take (Z.to_nat (m_loadedTextures s)) (m_textureIDs s))
              (fun i => {| result := -1; index := Z.of_nat i; bFound := false |})
              (fun i r => {| result := Int.i32 (TEXTURE_INFO.ID r);
                             index := Z.of_nat i; bFound := true |})
              _ _ _ _ _ 0%nat (find_fuel s) eq_refl).
  - rewrite drop_0. now destruct (list_find _ _) as [[j r]|].
  - lia.
  - rewrite loaded_length. unfold find_fuel. lia.
  Unshelve.
  + apply find_cond_pending.
  + apply find_cond_end.
  + intros i x. unfold find_cond. simpl. apply andb_false_r.
  + intros i x Hx. apply lookup_take_Some in Hx as [Hx _]. simpl.
    rewrite (array_get_lookup _ _ _ Hx). simpl.
    rewrite string_eqb_decide. destruct (decide _); [done|].
    now rewrite Nat2Z.inj_succ.
Qed.

Lemma FindTextureSlot_search :
  FindTextureSlot tag s =
  Ok (match list_find (fun r => TEXTURE_INFO.tag r = tag)
                      (take (Z.to_nat (m_loadedTextures s)) (m_textureIDs s)) with
      | Some (j, _) => Z.of_nat j
      | None => -1
      end).
Proof.
  unfold FindTextureSlot.
  erewrite (while_search (find_cond s) _ (fun r => TEXTURE_INFO.tag r = tag)
              (take (Z.to_nat (m_loadedTextures s)) (m_textureIDs s))
              (fun i => {| result := -1; index := Z.of_nat i; bFound := false |})
              (fun i r => {| result := Z.of_nat i; index := Z.of_nat i; bFound := true |})
              _ _ _ _ _ 0%nat (find_fuel s) eq_refl).
  - rewrite drop_0. now destruct (list_find _ _) as [[j r]|].
  - lia.
  - rewrite loaded_length. unfold find_fuel. lia.
  Unshelve.
  + apply find_cond_pending.
  + apply find_cond_end.
  + intros i x. unfold find_cond. simpl. apply andb_false_r.
  + intros i x Hx. apply lookup_take_Some in Hx as [Hx _]. simpl.
    rewrite (array_get_lookup _ _ _ Hx). simpl.
    rewrite string_eqb_decide. destruct (decide _); [done|].
    now rewrite Nat2Z.inj_succ.
Qed.

End TextureLookup.

Lemma not_loaded_find_None (s : SceneManager) (tag : string) :
  tag ∉ loaded_tags s ->
  list_find (fun r => TEXTURE_INFO.tag r = tag)
            (take (Z.to_nat (m_loadedTextures s)) (m_textureIDs s)) = None.
Proof.
  intros Hnot. apply list_find_None, Forall_forall. intros r Hr Htag.
  apply Hnot. unfold loaded_tags. rewrite <- Htag. now apply list_elem_of_fmap_2.
Qed.

(** ** The registry invariant *)

(** An entry the constructor initialised reads back as -1 through the
    [int] conversion of [FindTextureID]. *)
Lemma unset_texture_reads_sentinel : Int.i32 (TEXTURE_INFO.ID unset_texture) = -1.
Proof. reflexivity. Qed.

Lemma SceneManager_new_ok (sh : option ShaderManager.t) : registry_ok (SceneManager_new sh).
Proof. split; [reflexivity | simpl; unfold TEXTURE_SLOTS; lia]. Qed.

Lemma emit_registry_ok (es : list Event) (s : SceneManager) :
  registry_ok s -> registry_ok (emit es s).
Proof. intros H. exact H. Qed.

Lemma with_shader_registry_ok f (s : SceneManager) :
  registry_ok s -> registry_ok (with_shader f s).
Proof. intros H. exact H. Qed.

(** ** Registering a texture *)

Lemma register_texture_ok (id : Z) (tag : string) (s : SceneManager) :
  registry_ok s ->
  m_loadedTextures s < Z.of_nat TEXTURE_SLOTS ->
  register_texture id tag s =
  Ok (true,
      with_textures (<[Z.to_nat (m_loadedTextures s) := TEXTURE_INFO.Make tag id]> (m_textureIDs s))
                    (m_loadedTextures s + 1) s).
Proof.
  intros [Hlen Hm] Hlt. unfold register_texture, array_upd.
  destruct (lookup_lt_is_Some_2 (m_textureIDs s) (Z.to_nat (m_loadedTextures s)))
    as [r Hr]; [lia|].
  rewrite (array_get_lookup_Z _ _ r) by (lia || assumption). simpl.
  rewrite (array_get_lookup_Z _ _ (TEXTURE_INFO.set_ID id r)); [|lia|].
  - simpl. now rewrite list_insert_insert_eq.
  - apply list_lookup_insert_eq. now apply lookup_lt_Some in Hr.
Qed.

Lemma register_texture_full (id : Z) (tag : string) (s : SceneManager) :
  Z.of_nat (length (m_textureIDs s)) <= m_loadedTextures s ->
  register_texture id tag s = Fault.
Proof.
  intros Hfull. unfold register_texture, array_upd.
  now rewrite array_get_outside.
Qed.

(** The events of a load that reaches the registration. *)
Lemma CreateGLTexture_supported (img : Image) (name : Z) (filename tag : string)
      (s : SceneManager) :
  colorChannels img = 3 \/ colorChannels img = 4 ->
  exists es, CreateGLTexture (Some img) name filename tag s
             = register_texture (Int.u32 name) tag (emit es s).
Proof.
  intros Hch. unfold CreateGLTexture.
  destruct (colorChannels img =? 3) eqn:H3.
  - eexists. unfold emit at 1 2 3 4. simpl. rewrite <- !app_assoc. reflexivity.
  - destruct (colorChannels img =? 4) eqn:H4.
    + eexists. unfold emit at 1 2 3 4. simpl. rewrite <- !app_assoc. reflexivity.
    + apply Z.eqb_neq in H3, H4. lia.
Qed.

Lemma u32_small (z : Z) : 0 <= z < 2 ^ 31 -> Int.u32 z = z.
Proof. intros Hz. unfold Int.u32. apply Z.mod_small. lia. Qed.

Lemma i32_small (z : Z) : 0 <= z < 2 ^ 31 -> Int.i32 z = z.
Proof. intros Hz. unfold Int.i32. rewrite Z.mod_small by lia. lia. Qed.

Lemma CreateGLTexture_full_faults (img : Image) (name : Z) (filename tag : string)
      (s : SceneManager) :
  Z.of_nat (length (m_textureIDs s)) <= m_loadedTextures s ->
  colorChannels img = 3 \/ colorChannels img = 4 ->
  CreateGLTexture (Some img) name filename tag s = Fault.
Proof.
  intros Hfull Hch.
  destruct (CreateGLTexture_supported img name filename tag s Hch) as [es ->].
  now apply register_texture_full.
Qed.

Lemma loaded_after_register (new : TEXTURE_INFO.t) (s : SceneManager) :
  registry_ok s ->
  m_loadedTextures s < Z.of_nat TEXTURE_SLOTS ->
  take (Z.to_nat (m_loadedTextures s + 1))
       (<[Z.to_nat (m_loadedTextures s) := new]> (m_textureIDs s))
  = take (Z.to_nat (m_loadedTextures s)) (m_textureIDs s) ++ [new].
Proof.
  intros [Hlen Hm] Hlt.
  replace (Z.to_nat (m_loadedTextures s + 1)) with (S (Z.to_nat (m_loadedTextures s))) by lia.
  rewrite (take_S_r _ _ new).
  - now rewrite take_insert_ge by lia.
  - apply list_lookup_insert_eq. lia.
Qed.

Lemma unsupported_channels_return_false
      (img : Image) (name : Z) (filename tag : string) (s : SceneManager) :
  colorChannels img <> 3 ->
  colorChannels img <> 4 ->
  exists s',
    CreateGLTexture (Some img) name filename tag s = Ok (false, s') /\
    m_textureIDs s' = m_textureIDs s /\
    m_loadedTextures s' = m_loadedTextures s.
Proof.
  intros H3 H4. unfold CreateGLTexture.
  apply Z.eqb_neq in H3, H4. rewrite H3, H4.
  eexists. split; [reflexivity|]. split; reflexivity.
Qed.

(** A load of a decodable 3- or 4-channel image has no path that returns
    false, whatever the size of the array. *)
Lemma CreateGLTexture_supported_never_false (img : Image) (name : Z)
      (filename tag : string) (s s' : SceneManager) :
  colorChannels img = 3 \/ colorChannels img = 4 ->
  CreateGLTexture (Some img) name filename tag s <> Ok (false, s').
Proof.
  intros Hch.
  destruct (CreateGLTexture_supported img name filename tag s Hch) as [es ->].
  unfold register_texture.
  destruct (array_upd _ _ _) as [a1| |]; simpl; [|discriminate..].
  destruct (array_upd a1 _ _) as [a2| |]; simpl; discriminate.
Qed.

(** Every call that returns keeps the registry well formed. *)
Lemma CreateGLTexture_preserves_ok (image : option Image) (name : Z)
      (filename tag : string) (s s' : SceneManager) (b : bool) :
  registry_ok s ->
  CreateGLTexture image name filename tag s = Ok (b, s') ->
  registry_ok s'.
Proof.
  intros Hok Hcall. destruct image as [img|].
  - destruct (decide (colorChannels img = 3 \/ colorChannels img = 4)) as [Hch|Hch].
    + destruct (CreateGLTexture_supported img name filename tag s Hch) as [es Hes].
      rewrite Hes in Hcall.
      destruct (decide (m_loadedTextures s < Z.of_nat TEXTURE_SLOTS)) as [Hlt|Hge].
      * rewrite (register_texture_ok _ _ (emit es s) (emit_registry_ok es s Hok) Hlt) in Hcall.
        injection Hcall as _ <-. destruct Hok as [Hlen Hm]. split; simpl.
        -- now rewrite length_insert.
        -- unfold TEXTURE_SLOTS in *. lia.
      * rewrite register_texture_full in Hcall; [discriminate|].
        destruct Hok as [Hlen Hm]. simpl. rewrite Hlen. lia.
    + destruct (unsupported_channels_return_false img name filename tag s)
        as (s0 & Hs0 & Harr & Hcount); [tauto..|].
      rewrite Hs0 in Hcall. injection Hcall as _ <-.
      destruct Hok as [Hlen Hm]. split; [now rewrite Harr | now rewrite Hcount].
  - injection Hcall as _ <-. exact Hok.
Qed.

(** ** Claims about the texture registry *)

(** C7. On a well-formed registry, a tag that no loaded texture carries
    makes [FindTextureID] and [FindTextureSlot] return -1, and a tag that
    some loaded texture carries makes them return the ID and the slot of
    the first such texture in load order; either way both calls return
    normally. *)
Theorem texture_lookup_sentinel_or_first_match (s : SceneManager) (tag : string) :
  registry_ok s ->
  (tag ∉ loaded_tags s ->
   FindTextureID tag s = Ok (-1) /\ FindTextureSlot tag s = Ok (-1)) /\
  (forall (i : nat) (r : TEXTURE_INFO.t),
     Z.of_nat i < m_loadedTextures s ->
     m_textureIDs s !! i = Some r ->
     TEXTURE_INFO.tag r = tag ->
     (forall (j : nat) (r' : TEXTURE_INFO.t),
        (j < i)%nat -> m_textureIDs s !! j = Some r' -> TEXTURE_INFO.tag r' <> tag) ->
     FindTextureID tag s = Ok (Int.i32 (TEXTURE_INFO.ID r)) /\
     FindTextureSlot tag s = Ok (Z.of_nat i)) /\
  (exists id slot, FindTextureID tag s = Ok id /\ FindTextureSlot tag s = Ok slot).
Proof.
  intros Hok.
  rewrite (FindTextureID_search s tag Hok), (FindTextureSlot_search s tag Hok).
  split; [|split].
  - intros Hnot. now rewrite (not_loaded_find_None s tag Hnot).
  - intros i r Hi Hr Htag Hfirst.
    assert (list_find (fun r => TEXTURE_INFO.tag r = tag)
                      (take (Z.to_nat (m_loadedTextures s)) (m_textureIDs s))
            = Some (i, r)) as ->; [|done].
    apply list_find_Some. split; [|split].
    + rewrite lookup_take_lt by lia. exact Hr.
    + exact Htag.
    + intros j y Hy Hj. apply lookup_take_Some in Hy as [Hy _]. eauto.
  - destruct (list_find _ _) as [[j r]|]; eauto.
Qed.

(** C6, as the code has it.  On a well-formed registry with a free slot, a
    load of an image that decoded with 3 or 4 channels, under a tag that no
    loaded texture carries yet and with a GL name below 2^31, returns true,
    raises the count by one, writes the record at the old count, keeps the
    records below it, and makes [FindTextureID] and [FindTextureSlot] return
    that record's name and slot, neither of which is -1. *)
Theorem CreateGLTexture_registers_fresh_tag
        (img : Image) (name : Z) (filename tag : string) (s : SceneManager) :
  registry_ok s ->
  m_loadedTextures s < Z.of_nat TEXTURE_SLOTS ->
  colorChannels img = 3 \/ colorChannels img = 4 ->
  tag ∉ loaded_tags s ->
  0 <= name < 2 ^ 31 ->
  exists s',
    CreateGLTexture (Some img) name filename tag s = Ok (true, s') /\
    registry_ok s' /\
    m_loadedTextures s' = m_loadedTextures s + 1 /\
    m_textureIDs s' !! Z.to_nat (m_loadedTextures s) = Some (TEXTURE_INFO.Make tag name) /\
    (forall j : nat, Z.of_nat j < m_loadedTextures s ->
                     m_textureIDs s' !! j = m_textureIDs s !! j) /\
    FindTextureID tag s' = Ok name /\ name <> -1 /\
    FindTextureSlot tag s' = Ok (m_loadedTextures s) /\ m_loadedTextures s <> -1.
Proof.
  intros Hok Hlt Hch Hfresh Hname.
  destruct (CreateGLTexture_supported img name filename tag s Hch) as [es ->].
  rewrite (register_texture_ok _ _ (emit es s) (emit_registry_ok es s Hok) Hlt).
  rewrite (u32_small name Hname). simpl.
  set (new := TEXTURE_INFO.Make tag name).
  set (s' := with_textures _ _ _).
  assert (registry_ok s') as Hok'.
  { destruct Hok as [Hlen Hm]. split; simpl.
    - now rewrite length_insert.
    - unfold TEXTURE_SLOTS in *. lia. }
  assert (list_find (fun r => TEXTURE_INFO.tag r = tag)
                    (take (Z.to_nat (m_loadedTextures s')) (m_textureIDs s'))
          = Some (Z.to_nat (m_loadedTextures s), new)) as Hfind.
  { simpl. rewrite (loaded_after_register new s Hok Hlt).
    apply list_find_app_Some. right.
    rewrite (loaded_length s Hok), Nat.sub_diag.
    split; [lia|]. split; [now apply not_loaded_find_None|].
    simpl. now rewrite decide_True. }
  exists s'. destruct Hok as [Hlen Hm].
  split; [reflexivity|]. split; [exact Hok'|]. split; [reflexivity|].
  split; [apply list_lookup_insert_eq; lia|].
  split; [intros j Hj; apply list_lookup_insert_ne; lia|].
  rewrite (FindTextureID_search s' tag Hok'), (FindTextureSlot_search s' tag Hok'), Hfind.
  simpl. rewrite (i32_small name Hname), Z2Nat.id by lia.
  repeat split; lia.
Qed.

(** C5. A load of an image that decoded with a channel count other than 3
    and 4 returns false and leaves the texture array, the count of loaded
    textures and so the loaded tags as they were. *)
Theorem CreateGLTexture_unsupported_channels
        (img : Image) (name : Z) (filename tag : string) (s : SceneManager) :
  colorChannels img <> 3 ->
  colorChannels img <> 4 ->
  exists s',
    CreateGLTexture (Some img) name filename tag s = Ok (false, s') /\
    m_textureIDs s' = m_textureIDs s /\
    m_loadedTextures s' = m_loadedTextures s /\
    loaded_tags s' = loaded_tags s.
Proof.
  intros H3 H4.
  destruct (unsupported_channels_return_false img name filename tag s H3 H4)
    as (s' & Hcall & Harr & Hcount).
  exists s'. split; [exact Hcall|]. split; [exact Harr|]. split; [exact Hcount|].
  unfold loaded_tags. now rewrite Harr, Hcount.
Qed.

(** C2, at the failing input.  With sixteen textures loaded the registry is
    well formed and full, and one more load of a decodable RGB image does
    not return false: it reaches the store to entry 16 of the 16-entry
    array. *)
Theorem CreateGLTexture_seventeenth_load :
  registry_ok sixteen_loaded /\
  m_loadedTextures sixteen_loaded = 16 /\
  CreateGLTexture (Some rgb_image) 17 "textures/t.jpg" "t16" sixteen_loaded = Fault.
Proof.
  split; [|split].
  - split; vm_compute; [reflexivity | split; discriminate].
  - vm_compute. reflexivity.
  - apply CreateGLTexture_full_faults; [|now left].
    vm_compute. discriminate.
Qed.

Lemma CreateGLTexture_registers_fresh_tag_witness :
  exists s',
    CreateGLTexture (Some rgb_image) 3 "textures/Desk_texture2.jpg" "desk" two_loaded
    = Ok (true, s') /\
    m_loadedTextures s' = 3 /\
    FindTextureID "desk" s' = Ok 3 /\
    FindTextureSlot "desk" s' = Ok 2.
Proof.
  destruct (CreateGLTexture_registers_fresh_tag
              rgb_image 3 "textures/Desk_texture2.jpg" "desk" two_loaded)
    as (s' & Hload & _ & Hcount & _ & _ & Hid & _ & Hslot & _).
  - split; vm_compute; [reflexivity | split; discriminate].
  - vm_compute. reflexivity.
  - left. reflexivity.
  - not_member.
  - lia.
  - exists s'. repeat split; assumption.
Defined.

(** C6 as stated fails when the tag is already registered: the load
    succeeds and the new record sits in slot 1 with name 2, but both
    lookups resolve the tag to the older record in slot 0 with name 1. *)
Lemma CreateGLTexture_duplicate_tag_resolves_old :
  exists s',
    CreateGLTexture (Some rgb_image) 2 "textures/Wood-Floor_texture2.jpg" "floor" floor_loaded
    = Ok (true, s') /\
    m_loadedTextures floor_loaded = 1 /\
    m_loadedTextures s' = 2 /\
    m_textureIDs s' !! 1%nat = Some (TEXTURE_INFO.Make "floor" 2) /\
    FindTextureID "floor" s' = Ok 1 /\
    FindTextureSlot "floor" s' = Ok 0.
Proof.
  eexists. split; [vm_compute; reflexivity|].
  repeat split; vm_compute; reflexivity.
Qed.

Lemma CreateGLTexture_unsupported_channels_witness :
  exists s',
    CreateGLTexture (Some grey_image) 3 "textures/grey.png" "grey" two_loaded = Ok (false, s') /\
    m_loadedTextures s' = 2 /\
    loaded_tags s' = loaded_tags two_loaded.
Proof.
  destruct (CreateGLTexture_unsupported_channels
              grey_image 3 "textures/grey.png" "grey" two_loaded)
    as (s' & Hload & _ & Hcount & Htags).
  - simpl. lia.
  - simpl. lia.
  - exists s'. split; [exact Hload|]. split; [|exact Htags].
    rewrite Hcount. vm_compute. reflexivity.
Defined.

Lemma texture_lookup_sentinel_or_first_match_witness :
  FindTextureSlot "nonexistent" two_loaded = Ok (-1) /\
  FindTextureID "nonexistent" two_loaded = Ok (-1) /\
  FindTextureSlot "t1" two_loaded = Ok 1.
Proof.
  assert (registry_ok two_loaded) as Hok.
  { split; vm_compute; [reflexivity | split; discriminate]. }
  destruct (texture_lookup_sentinel_or_first_match two_loaded "nonexistent" Hok)
    as [Hnone _].
  destruct (texture_lookup_sentinel_or_first_match two_loaded "t1" Hok)
    as [_ [Hfirst _]].
  destruct Hnone as [Hid Hslot].
  - not_member.
  - destruct (Hfirst 1%nat (TEXTURE_INFO.Make "t1" 2)) as [_ Hslot1].
    + vm_compute. reflexivity.
    + vm_compute. reflexivity.
    + reflexivity.
    + intros j r' Hj Hr'. assert (j = 0%nat) as -> by lia.
      vm_compute in Hr'. injection Hr' as <-. discriminate.
    + repeat split; assumption.
Defined.

(** ** The loops over the loaded textures *)

Lemma emit_emit (a b : list Event) (s : SceneManager) :
  emit b (emit a s) = emit (a ++ b) s.
Proof. unfold emit. simpl. now rewrite app_assoc. Qed.

Lemma emit_nil (s : SceneManager) : emit [] s = s.
Proof. destruct s. unfold emit. simpl. now rewrite app_nil_r. Qed.

Section ForLoaded.
Context (s : SceneManager) (ev : Z -> TEXTURE_INFO.t -> list Event).
Hypothesis Hok : registry_ok s.

Lemma for_loaded_from n : forall (i fuel : nat) (es : list Event),
  (n = Z.to_nat (m_loadedTextures s) - i)%nat ->
  (i <= Z.to_nat (m_loadedTextures s))%nat ->
  (n < fuel)%nat ->
  Outcome.while fuel
    (fun st => fst st <? m_loadedTextures (snd st))
    (fun st =>
       s' ← (r ← array_get (m_textureIDs (snd st)) (fst st);
             Ok (emit (ev (fst st) r) (snd st)));
       Ok (fst st + 1, s'))
    (Z.of_nat i, emit es s)
  = Ok (m_loadedTextures s,
        emit (es ++ concat (imap (fun j r => ev (Z.of_nat (i + j)) r)
                                 (drop i (take (Z.to_nat (m_loadedTextures s))
                                               (m_textureIDs s)))))
             s).
Proof.
  pose proof (loaded_length s Hok) as Hlen.
  destruct Hok as [_ Hm].
  induction n as [|n IH]; intros i fuel es Hn Hi Hfuel.
  - destruct fuel as [|fuel]; [lia|].
    rewrite while_exit by (simpl; apply Z.ltb_ge; lia).
    rewrite drop_ge by lia. simpl. rewrite app_nil_r.
    f_equal. f_equal. lia.
  - destruct fuel as [|fuel]; [lia|].
    destruct (lookup_lt_is_Some_2
                (take (Z.to_nat (m_loadedTextures s)) (m_textureIDs s)) i)
      as [r Hr]; [lia|].
    rewrite (drop_S _ r i Hr).
    apply lookup_take_Some in Hr as [Hr _].
    erewrite while_step; cycle 1.
    + simpl. apply Z.ltb_lt. lia.
    + simpl. rewrite (array_get_lookup _ _ _ Hr). simpl. reflexivity.
    + rewrite emit_emit.
      replace (Z.of_nat i + 1) with (Z.of_nat (S i)) by lia.
      rewrite (IH (S i) fuel) by lia.
      simpl. rewrite Nat.add_0_r, <- app_assoc.
      do 6 f_equal. apply imap_ext. intros j x _. simpl.
      now rewrite Nat.add_succ_r.
Qed.

Lemma for_loaded_emits :
  for_loaded (fun i s' => r ← array_get (m_textureIDs s') i; Ok (emit (ev i r) s')) s
  = Ok (emit (concat (imap (fun j r => ev (Z.of_nat j) r)
                           (take (Z.to_nat (m_loadedTextures s)) (m_textureIDs s))))
             s).
Proof.
  unfold for_loaded.
  rewrite <- (emit_nil s) at 2.
  change 0 with (Z.of_nat 0).
  erewrite (for_loaded_from _ 0%nat _ [] eq_refl) by lia.
  simpl. reflexivity.
Qed.

End ForLoaded.

Lemma concat_imap_singleton {A B} (f : A -> B) (l : list A) :
  concat (imap (fun _ x => [f x]) l) = f <$> l.
Proof.
  induction l as [|x l IH]; [reflexivity|].
  simpl. f_equal. exact IH.
Qed.

Lemma DestroyGLTextures_deletes (s : SceneManager) :
  registry_ok s ->
  DestroyGLTextures s =
  Ok (emit ((fun r => glDeleteTextures (TEXTURE_INFO.ID r))
              <$> take (Z.to_nat (m_loadedTextures s)) (m_textureIDs s)) s).
Proof.
  intros Hok. unfold DestroyGLTextures.
  rewrite (for_loaded_emits s (fun _ r => [glDeleteTextures (TEXTURE_INFO.ID r)]) Hok).
  now rewrite concat_imap_singleton.
Qed.

(** ** Live GL texture names *)

Lemma live_after_deletes (ids : list Z) : forall live : gset Z,
  foldl live_step live (glDeleteTextures <$> ids) = live ∖ list_to_set ids.
Proof.
  induction ids as [|id ids IH]; intros live; simpl.
  - now rewrite difference_empty_L.
  - now rewrite IH, difference_difference_l_L.
Qed.

Lemma live_textures_deletes (calls : list Event) (ids : list Z) :
  live_textures (calls ++ (glDeleteTextures <$> ids))
  = live_textures calls ∖ list_to_set ids.
Proof.
  unfold live_textures. rewrite foldl_app. apply live_after_deletes.
Qed.

(** ** Claims about releasing the textures *)

(** C3, as the code has it.  On a well-formed registry, [DestroyGLTextures]
    issues one [glDeleteTextures] per loaded texture, in slot order, after
    which none of their names is live, and it leaves the texture array and
    the count of loaded textures as they were; a second call does the same
    and leaves the array, the count and the set of live texture names as
    the first call left them. *)
Theorem DestroyGLTextures_keeps_registry (s : SceneManager) :
  registry_ok s ->
  exists s1 s2,
    DestroyGLTextures s = Ok s1 /\
    trace s1 = trace s ++ ((fun r => glDeleteTextures (TEXTURE_INFO.ID r))
                             <$> take (Z.to_nat (m_loadedTextures s)) (m_textureIDs s)) /\
    m_textureIDs s1 = m_textureIDs s /\
    m_loadedTextures s1 = m_loadedTextures s /\
    (forall r, r ∈ take (Z.to_nat (m_loadedTextures s)) (m_textureIDs s) ->
               TEXTURE_INFO.ID r ∉ live_textures (trace s1)) /\
    DestroyGLTextures s1 = Ok s2 /\
    m_textureIDs s2 = m_textureIDs s1 /\
    m_loadedTextures s2 = m_loadedTextures s1 /\
    live_textures (trace s2) = live_textures (trace s1).
Proof.
  intros Hok.
  set (loaded := take (Z.to_nat (m_loadedTextures s)) (m_textureIDs s)).
  set (dels := (fun r => glDeleteTextures (TEXTURE_INFO.ID r)) <$> loaded).
  assert (forall calls,
            live_textures (calls ++ dels)
            = live_textures calls ∖ list_to_set (TEXTURE_INFO.ID <$> loaded)) as Hlive.
  { intros calls. rewrite <- live_textures_deletes. unfold dels.
    now rewrite <- list_fmap_compose. }
  assert (registry_ok (emit dels s)) as Hok1 by exact Hok.
  exists (emit dels s), (emit dels (emit dels s)).
  split; [apply (DestroyGLTextures_deletes s Hok)|].
  split; [reflexivity|]. split; [reflexivity|]. split; [reflexivity|].
  split.
  - intros r Hr. simpl. rewrite Hlive. apply not_elem_of_difference. right.
    apply elem_of_list_to_set. now apply list_elem_of_fmap_2.
  - split; [apply (DestroyGLTextures_deletes (emit dels s) Hok1)|].
    split; [reflexivity|]. split; [reflexivity|].
    simpl. rewrite !Hlive. apply difference_twice_L.
Qed.

Lemma DestroyGLTextures_keeps_registry_witness :
  exists s1 s2,
    DestroyGLTextures two_loaded = Ok s1 /\
    m_loadedTextures s1 = 2 /\
    DestroyGLTextures s1 = Ok s2 /\
    m_loadedTextures s2 = 2 /\
    live_textures (trace s2) = live_textures (trace s1).
Proof.
  destruct (DestroyGLTextures_keeps_registry two_loaded)
    as (s1 & s2 & H1 & _ & _ & Hc1 & _ & H2 & _ & Hc2 & Hlive).
  - split; vm_compute; [reflexivity | split; discriminate].
  - exists s1, s2. rewrite Hc2, Hc1.
    repeat split; try assumption; vm_compute; reflexivity.
Defined.

(** C3 as stated fails: after [DestroyGLTextures] on a registry holding two
    textures the count is still 2, not 0, the two tags are still
    registered and a lookup still resolves one of them. *)
Lemma DestroyGLTextures_registry_not_emptied :
  registry_ok two_loaded /\
  exists s1,
    DestroyGLTextures two_loaded = Ok s1 /\
    m_loadedTextures s1 = 2 /\
    m_loadedTextures s1 <> 0 /\
    loaded_tags s1 = ["t0"; "t1"] /\
    FindTextureSlot "t1" s1 = Ok 1.
Proof.
  split.
  - split; vm_compute; [reflexivity | split; discriminate].
  - eexists. split; [vm_compute; reflexivity|].
    repeat split; try (vm_compute; reflexivity).
    vm_compute. discriminate.
Qed.

(** ** The material table *)

Lemma FindMaterial_search (tag : string) (material0 : OBJECT_MATERIAL.t) (s : SceneManager) :
  FindMaterial tag material0 s =
  Ok (match m_objectMaterials s with [] => false | _ => true end,
      match list_find (fun m => OBJECT_MATERIAL.tag m = tag) (m_objectMaterials s) with
      | Some (_, m) => copy_material m material0
      | None => material0
      end).
Proof.
  unfold FindMaterial.
  destruct (m_objectMaterials s) as [|m0 ms] eqn:Hmats; [reflexivity|].
  rewrite <- Hmats.
  assert ((Z.of_nat (length (m_objectMaterials s)) =? 0) = false) as ->.
  { rewrite Hmats. reflexivity. }
  erewrite (while_search _ _ (fun m => OBJECT_MATERIAL.tag m = tag)
              (m_objectMaterials s)
              (fun i => {| mindex := Z.of_nat i; mbFound := false; material := material0 |})
              (fun i m => {| mindex := Z.of_nat i; mbFound := true;
                             material := copy_material m material0 |})
              _ _ _ _ _ 0%nat (S (length (m_objectMaterials s))) eq_refl).
  - rewrite drop_0. now destruct (list_find _ _) as [[j m]|].
  - lia.
  - lia.
  Unshelve.
  + intros i Hi. simpl. rewrite andb_true_r. apply Z.ltb_lt. lia.
  + simpl. rewrite andb_true_r. apply Z.ltb_ge. lia.
  + intros i x. simpl. apply andb_false_r.
  + intros i x Hx. simpl.
    rewrite (array_get_lookup _ _ _ Hx). simpl.
    rewrite string_eqb_decide. destruct (decide _); [done|].
    now rewrite Nat2Z.inj_succ.
Qed.

Lemma FindMaterial_nonempty_true (tag : string) (material0 : OBJECT_MATERIAL.t)
      (s : SceneManager) :
  m_objectMaterials s <> [] ->
  exists m, FindMaterial tag material0 s = Ok (true, m).
Proof.
  intros Hne. rewrite FindMaterial_search.
  destruct (m_objectMaterials s); [done|]. eauto.
Qed.

Lemma FindMaterial_empty_false (tag : string) (material0 : OBJECT_MATERIAL.t)
      (s : SceneManager) :
  m_objectMaterials s = [] ->
  FindMaterial tag material0 s = Ok (false, material0).
Proof. intros Hnil. rewrite FindMaterial_search, Hnil. reflexivity. Qed.

Lemma FindMaterial_found (tag : string) (material0 m : OBJECT_MATERIAL.t)
      (i : nat) (s : SceneManager) :
  m_objectMaterials s !! i = Some m ->
  OBJECT_MATERIAL.tag m = tag ->
  (forall j m', (j < i)%nat -> m_objectMaterials s !! j = Some m' ->
                OBJECT_MATERIAL.tag m' <> tag) ->
  FindMaterial tag material0 s = Ok (true, copy_material m material0).
Proof.
  intros Hm Htag Hfirst. rewrite FindMaterial_search.
  assert (list_find (fun m => OBJECT_MATERIAL.tag m = tag) (m_objectMaterials s)
          = Some (i, m)) as ->.
  { apply list_find_Some. split; [exact Hm|]. split; [exact Htag|]. eauto. }
  destruct (m_objectMaterials s); [|reflexivity].
  now rewrite lookup_nil in Hm.
Qed.

(** C1, at the failing input.  The scene's material table holds five
    materials, none tagged ["glassMaterial"], and [FindMaterial] returns
    true for that tag. *)
Theorem FindMaterial_unmatched_returns_true :
  length (m_objectMaterials scene_materials) = 5%nat /\
  ("glassMaterial" ∉ (OBJECT_MATERIAL.tag <$> m_objectMaterials scene_materials)) /\
  FindMaterial "glassMaterial" blank_material scene_materials = Ok (true, blank_material).
Proof.
  split; [reflexivity|]. split.
  - not_member.
  - vm_compute. reflexivity.
Qed.

(** C10. On a non-empty material table, a tag that no stored material
    carries makes [FindMaterial] hand the caller's material back exactly as
    it was passed in, whatever boolean it returns. *)
Theorem FindMaterial_unmatched_leaves_output
        (tag : string) (material0 : OBJECT_MATERIAL.t) (s : SceneManager) :
  m_objectMaterials s <> [] ->
  tag ∉ (OBJECT_MATERIAL.tag <$> m_objectMaterials s) ->
  exists b : bool, FindMaterial tag material0 s = Ok (b, material0).
Proof.
  intros _ Hnot. rewrite FindMaterial_search.
  assert (list_find (fun m => OBJECT_MATERIAL.tag m = tag) (m_objectMaterials s) = None) as ->.
  { apply list_find_None, Forall_forall. intros m Hm Htag.
    apply Hnot. rewrite <- Htag. now apply list_elem_of_fmap_2. }
  eauto.
Qed.

Lemma FindMaterial_unmatched_leaves_output_witness :
  exists b : bool,
    FindMaterial "glassMaterial" deskMaterial scene_materials = Ok (b, deskMaterial).
Proof.
  apply (FindMaterial_unmatched_leaves_output "glassMaterial" deskMaterial scene_materials).
  - vm_compute. discriminate.
  - not_member.
Defined.

(** ** The uniform bridge *)

Lemma uniform_with_shader (name : string) f (s : SceneManager) (sh : ShaderManager.t) :
  m_pShaderManager s = Some sh ->
  uniform name (with_shader f s) = f sh !! name.
Proof. intros Hsh. unfold uniform, with_shader. simpl. now rewrite Hsh. Qed.

Lemma SetShaderColor_uniforms (r g b a : float) (s : SceneManager) (sh : ShaderManager.t) :
  m_pShaderManager s = Some sh ->
  uniform g_UseTextureName (SetShaderColor r g b a s) = Some (UInt 0) /\
  uniform g_ColorValueName (SetShaderColor r g b a s) = Some (UVec4 (Glm.Vec4 r g b a)).
Proof.
  intros Hsh. unfold SetShaderColor.
  rewrite !(uniform_with_shader _ _ s sh Hsh).
  unfold setVec4Value, setIntValue. split.
  - rewrite lookup_insert_ne by discriminate. apply lookup_insert_eq.
  - apply lookup_insert_eq.
Qed.

Lemma SetShaderTexture_uniforms (tag : string) (s : SceneManager) (sh : ShaderManager.t) :
  m_pShaderManager s = Some sh ->
  registry_ok s ->
  exists s1 slot,
    SetShaderTexture tag s = Ok s1 /\
    FindTextureSlot tag s = Ok slot /\
    registry_ok s1 /\
    is_Some (m_pShaderManager s1) /\
    uniform g_UseTextureName s1 = Some (UInt 1) /\
    uniform g_TextureValueName s1 = Some (USampler2D slot).
Proof.
  intros Hsh Hok. unfold SetShaderTexture. rewrite Hsh.
  set (s0 := with_shader (setIntValue g_UseTextureName 1) s).
  assert (registry_ok s0) as Hok0 by exact Hok.
  assert (m_pShaderManager s0 = Some (setIntValue g_UseTextureName 1 sh)) as Hsh0.
  { unfold s0, with_shader. simpl. now rewrite Hsh. }
  rewrite (FindTextureSlot_search s0 tag Hok0), (FindTextureSlot_search s tag Hok).
  simpl. eexists _, _. split; [reflexivity|]. split; [reflexivity|].
  split; [exact Hok|]. split.
  - simpl. rewrite Hsh. simpl. eauto.
  - rewrite !(uniform_with_shader _ _ s0 _ Hsh0).
    unfold setSampler2DValue, setIntValue. split.
    + rewrite lookup_insert_ne by discriminate. apply lookup_insert_eq.
    + apply lookup_insert_eq.
Qed.

(** C8. With a shader program attached and a well-formed registry,
    [SetShaderColor] sets [bUseTexture] to 0 and [objectColor] to the
    colour, [SetShaderTexture] returns and sets [bUseTexture] to 1, and
    [SetShaderColor] after [SetShaderTexture] leaves [bUseTexture] at 0
    with the colour written. *)
Theorem SetShaderColor_after_SetShaderTexture
        (tag : string) (r g b a : float) (s : SceneManager) (sh : ShaderManager.t) :
  m_pShaderManager s = Some sh ->
  registry_ok s ->
  (uniform g_UseTextureName (SetShaderColor r g b a s) = Some (UInt 0) /\
   uniform g_ColorValueName (SetShaderColor r g b a s) = Some (UVec4 (Glm.Vec4 r g b a))) /\
  exists s1,
    SetShaderTexture tag s = Ok s1 /\
    uniform g_UseTextureName s1 = Some (UInt 1) /\
    uniform g_UseTextureName (SetShaderColor r g b a s1) = Some (UInt 0) /\
    uniform g_ColorValueName (SetShaderColor r g b a s1) = Some (UVec4 (Glm.Vec4 r g b a)).
Proof.
  intros Hsh Hok. split; [now apply (SetShaderColor_uniforms r g b a s sh)|].
  destruct (SetShaderTexture_uniforms tag s sh Hsh Hok)
    as (s1 & slot & Hs1 & _ & _ & [sh1 Hsh1] & Hflag & _).
  exists s1. split; [exact Hs1|]. split; [exact Hflag|].
  now apply (SetShaderColor_uniforms r g b a s1 sh1).
Qed.

Lemma SetShaderColor_after_SetShaderTexture_witness :
  exists s1,
    SetShaderTexture "screen" floor_loaded = Ok s1 /\
    uniform g_UseTextureName s1 = Some (UInt 1) /\
    uniform g_UseTextureName (SetShaderColor F32.one F32.one F32.one F32.one s1)
    = Some (UInt 0).
Proof.
  destruct (SetShaderColor_after_SetShaderTexture
              "screen" F32.one F32.one F32.one F32.one floor_loaded ∅)
    as (_ & s1 & Hs1 & Hon & Hoff & _).
  - reflexivity.
  - split; vm_compute; [reflexivity | split; discriminate].
  - exists s1. repeat split; assumption.
Defined.

(** ** The transform compositor *)

(** The converted constant of [glm::radians] is the binary32 value nearest
    to the decimal literal: it lies within half a unit in the last place
    (2^-30) of 0.01745329251994329576923690768489. *)
Lemma deg_to_rad_nearest :
  Glm.deg_to_rad = S754_finite false 9370165 (-29) /\
  2 * Z.abs (9370165 * 10 ^ 32 - 1745329251994329576923690768489 * 2 ^ 29) <= 10 ^ 32.
Proof. split; [reflexivity|]. vm_compute. discriminate. Qed.

Lemma radians_zero : Glm.radians F32.zero = F32.zero.
Proof. reflexivity. Qed.

Lemma modelView_is_Compose `{Libm} (scaleXYZ : Glm.vec3) (xd yd zd : float)
      (positionXYZ : Glm.vec3) :
  modelView scaleXYZ xd yd zd positionXYZ
  = Spec.Compose scaleXYZ (Glm.Vec3 xd yd zd) positionXYZ.
Proof. reflexivity. Qed.

(** C4. With a shader program attached, [SetTransformations] leaves in the
    [model] uniform the product Translate · RotateZ · RotateY · RotateX ·
    Scale of the specification, each rotation being built from its angle
    converted from degrees to radians, about the X, Y and Z axis. *)
Theorem SetTransformations_forwards_Compose `{Libm}
        (scaleXYZ rotationDegrees positionXYZ : Glm.vec3)
        (s : SceneManager) (sh : ShaderManager.t) :
  m_pShaderManager s = Some sh ->
  uniform g_ModelName
          (SetTransformations scaleXYZ (Glm.x3 rotationDegrees) (Glm.y3 rotationDegrees)
                              (Glm.z3 rotationDegrees) positionXYZ s)
  = Some (UMat4 (Spec.Compose scaleXYZ rotationDegrees positionXYZ)).
Proof.
  intros Hsh. unfold SetTransformations.
  rewrite (uniform_with_shader _ _ s sh Hsh).
  unfold setMat4Value. rewrite lookup_insert_eq.
  rewrite modelView_is_Compose. now destruct rotationDegrees.
Qed.

Lemma SetTransformations_forwards_Compose_witness :
  uniform g_ModelName
          (@SetTransformations taylor_libm
             (Glm.Vec3 (F32.of_Z 2) F32.one F32.one) F32.zero (F32.of_Z 90) F32.zero
             (Glm.Vec3 (F32.of_Z 5) F32.zero F32.zero) fresh)
  = Some (UMat4 (@Spec.Compose taylor_libm
                   (Glm.Vec3 (F32.of_Z 2) F32.one F32.one)
                   (Glm.Vec3 F32.zero (F32.of_Z 90) F32.zero)
                   (Glm.Vec3 (F32.of_Z 5) F32.zero F32.zero))).
Proof.
  apply (@SetTransformations_forwards_Compose taylor_libm
           (Glm.Vec3 (F32.of_Z 2) F32.one F32.one)
           (Glm.Vec3 F32.zero (F32.of_Z 90) F32.zero)
           (Glm.Vec3 (F32.of_Z 5) F32.zero F32.zero) fresh ∅).
  reflexivity.
Defined.

(** C9. With a math library whose cosine of 0 is 1 and whose sine of 0 is
    0, the transform for scale (1,1,1), angles 0, 0, 0 and translation
    (0,0,0) is the identity matrix, entry for entry. *)
Theorem modelView_identity `{Libm} :
  cosf F32.zero = F32.one ->
  sinf F32.zero = F32.zero ->
  modelView (Glm.Vec3 F32.one F32.one F32.one) F32.zero F32.zero F32.zero
            (Glm.Vec3 F32.zero F32.zero F32.zero)
  = Glm.identity.
Proof.
  intros Hcos Hsin.
  unfold modelView, Glm.rotate, Glm.rotate_m.
  rewrite radians_zero. cbv zeta. rewrite Hcos, Hsin.
  vm_compute. reflexivity.
Qed.

Lemma modelView_identity_witness :
  @modelView taylor_libm (Glm.Vec3 F32.one F32.one F32.one) F32.zero F32.zero F32.zero
             (Glm.Vec3 F32.zero F32.zero F32.zero)
  = Glm.identity.
Proof.
  apply (@modelView_identity taylor_libm); vm_compute; reflexivity.
Defined.

(** * Further properties of the texture registry *)

Lemma live_textures_app (calls es : list Event) :
  live_textures (calls ++ es) = foldl live_step (live_textures calls) es.
Proof. unfold live_textures. apply foldl_app. Qed.

Lemma units_app (calls es : list Event) :
  GL.units (calls ++ es) = foldl GL.step (GL.units calls) es.
Proof. unfold GL.units. apply foldl_app. Qed.

Lemma live_textures_delete_records (calls : list Event) (l : list TEXTURE_INFO.t) :
  live_textures (calls ++ ((fun r => glDeleteTextures (TEXTURE_INFO.ID r)) <$> l))
  = live_textures calls ∖ list_to_set (TEXTURE_INFO.ID <$> l).
Proof. rewrite <- live_textures_deletes. now rewrite <- list_fmap_compose. Qed.

(** What the calls of a load that reaches the registration do to the GL
    state: one name is generated, and the selected unit ends up unbound. *)
Lemma CreateGLTexture_supported_calls (img : Image) (name : Z) (filename tag : string)
      (s : SceneManager) :
  colorChannels img = 3 \/ colorChannels img = 4 ->
  exists es,
    CreateGLTexture (Some img) name filename tag s
    = register_texture (Int.u32 name) tag (emit es s) /\
    (forall live, foldl live_step live es = {[ Int.u32 name ]} ∪ live) /\
    (forall u, foldl GL.step u es
               = {| GL.active := GL.active u;
                    GL.bound := <[GL.active u := 0]> (GL.bound u) |}).
Proof.
  intros Hch. unfold CreateGLTexture.
  destruct (colorChannels img =? 3) eqn:H3; [|destruct (colorChannels img =? 4) eqn:H4].
  - eexists. split; [unfold emit at 1 2 3 4; simpl; rewrite <- !app_assoc; reflexivity|].
    split; [reflexivity|]. intros u. simpl. now rewrite insert_insert_eq.
  - eexists. split; [unfold emit at 1 2 3 4; simpl; rewrite <- !app_assoc; reflexivity|].
    split; [reflexivity|]. intros u. simpl. now rewrite insert_insert_eq.
  - apply Z.eqb_neq in H3, H4. lia.
Qed.

Lemma loaded_ids_after_register (tag : string) (id : Z) (s : SceneManager) :
  registry_ok s ->
  m_loadedTextures s < Z.of_nat TEXTURE_SLOTS ->
  list_to_set (TEXTURE_INFO.ID <$>
                 take (Z.to_nat (m_loadedTextures s + 1))
                      (<[Z.to_nat (m_loadedTextures s) := TEXTURE_INFO.Make tag id]>
                         (m_textureIDs s)))
  = loaded_ids s ∪ ({[ id ]} : gset Z).
Proof.
  intros Hok Hlt. rewrite (loaded_after_register _ s Hok Hlt).
  rewrite fmap_app, list_to_set_app_L. simpl.
  unfold loaded_ids. now rewrite union_empty_r_L.
Qed.

Lemma load_below_capacity
        (image : option Image) (name : Z) (filename tag : string) (s : SceneManager) :
  registry_ok s ->
  m_loadedTextures s < Z.of_nat TEXTURE_SLOTS ->
  exists (b : bool) (s' : SceneManager),
    CreateGLTexture image name filename tag s = Ok (b, s') /\
    registry_ok s' /\
    (b = true <-> exists img, image = Some img /\
                              (colorChannels img = 3 \/ colorChannels img = 4)) /\
    m_loadedTextures s' = m_loadedTextures s + (if b then 1 else 0) /\
    (forall j : nat, Z.of_nat j < m_loadedTextures s ->
                     m_textureIDs s' !! j = m_textureIDs s !! j) /\
    (b = true -> m_textureIDs s' !! Z.to_nat (m_loadedTextures s)
                 = Some (TEXTURE_INFO.Make tag (Int.u32 name))) /\
    (b = false -> m_textureIDs s' = m_textureIDs s).
Proof.
  intros Hok Hlt. destruct image as [img|].
  - destruct (decide (colorChannels img = 3 \/ colorChannels img = 4)) as [Hch|Hch].
    + destruct (CreateGLTexture_supported img name filename tag s Hch) as [es ->].
      rewrite (register_texture_ok _ _ (emit es s) (emit_registry_ok es s Hok) Hlt).
      destruct Hok as [Hlen Hm]. eexists true, _. split; [reflexivity|].
      split.
      { split; simpl; [now rewrite length_insert | unfold TEXTURE_SLOTS in *; lia]. }
      split; [split; eauto|]. split; [reflexivity|].
      split; [intros j Hj; simpl; apply list_lookup_insert_ne; lia|].
      split; [intros _; simpl; apply list_lookup_insert_eq; lia | discriminate].
    + destruct (unsupported_channels_return_false img name filename tag s)
        as (s' & -> & Harr & Hcount); [tauto..|].
      exists false, s'. split; [reflexivity|].
      split; [destruct Hok; split; [now rewrite Harr | now rewrite Hcount]|].
      split; [split; [discriminate | intros (i & [= <-] & Hi); tauto]|].
      split; [rewrite Hcount; lia|].
      split; [intros j _; now rewrite Harr|]. split; [discriminate | now intros _].
  - eexists false, _. split; [reflexivity|]. split; [exact Hok|].
    split; [split; [discriminate | intros (i & [=] & _)]|].
    split; [simpl; lia|]. split; [reflexivity|]. split; [discriminate | reflexivity].
Qed.

(** X1. Below capacity every load returns.  It returns true exactly when
    the image decoded with 3 or 4 channels, in which case the count grows
    by one and the record is written at the old count; otherwise the array
    and the count stay as they were; either way the registry stays well
    formed and the records below the old count are kept. *)
Theorem CreateGLTexture_below_capacity
        (image : option Image) (name : Z) (filename tag : string) (s : SceneManager) :
  registry_ok s ->
  m_loadedTextures s < Z.of_nat TEXTURE_SLOTS ->
  exists (b : bool) (s' : SceneManager),
    CreateGLTexture image name filename tag s = Ok (b, s') /\
    registry_ok s' /\
    (b = true <-> exists img, image = Some img /\
                              (colorChannels img = 3 \/ colorChannels img = 4)) /\
    m_loadedTextures s' = m_loadedTextures s + (if b then 1 else 0) /\
    (forall j : nat, Z.of_nat j < m_loadedTextures s ->
                     m_textureIDs s' !! j = m_textureIDs s !! j) /\
    (b = true -> m_textureIDs s' !! Z.to_nat (m_loadedTextures s)
                 = Some (TEXTURE_INFO.Make tag (Int.u32 name))) /\
    (b = false -> m_textureIDs s' = m_textureIDs s).
Proof. exact (load_below_capacity image name filename tag s). Qed.

Lemma CreateGLTexture_below_capacity_witness :
  exists (b : bool) (s' : SceneManager),
    CreateGLTexture None 3 "textures/missing.jpg" "missing" two_loaded = Ok (b, s') /\
    b = false /\ m_loadedTextures s' = 2.
Proof.
  destruct (CreateGLTexture_below_capacity None 3 "textures/missing.jpg" "missing" two_loaded)
    as (b & s' & Hcall & _ & Hb & Hcount & _).
  - split; vm_compute; [reflexivity | split; discriminate].
  - vm_compute. reflexivity.
  - exists b, s'. split; [exact Hcall|].
    assert (b = false) as ->.
    { destruct b; [|reflexivity]. destruct (proj1 Hb eq_refl) as (i & [=] & _). }
    split; [reflexivity|]. rewrite Hcount. vm_compute. reflexivity.
Defined.

(** X2. A load rejected for its channel count leaves its GL texture behind:
    the generated name is live and still bound to the selected unit, and
    when no loaded record carries that name it stays live after
    [DestroyGLTextures]. *)
Theorem CreateGLTexture_unsupported_leaks_texture
        (img : Image) (name : Z) (filename tag : string) (s : SceneManager) :
  registry_ok s ->
  colorChannels img <> 3 ->
  colorChannels img <> 4 ->
  Int.u32 name ∉ loaded_ids s ->
  exists s' s'',
    CreateGLTexture (Some img) name filename tag s = Ok (false, s') /\
    Int.u32 name ∈ live_textures (trace s') /\
    GL.texture_on (GL.active (GL.units (trace s'))) (trace s') = Int.u32 name /\
    DestroyGLTextures s' = Ok s'' /\
    Int.u32 name ∈ live_textures (trace s'').
Proof.
  intros Hok H3 H4 Hnot.
  assert (exists s', CreateGLTexture (Some img) name filename tag s = Ok (false, s') /\
                     m_textureIDs s' = m_textureIDs s /\
                     m_loadedTextures s' = m_loadedTextures s /\
                     live_textures (trace s') = {[ Int.u32 name ]} ∪ live_textures (trace s) /\
                     GL.units (trace s')
                     = {| GL.active := GL.active (GL.units (trace s));
                          GL.bound := <[GL.active (GL.units (trace s)) := Int.u32 name]>
                                        (GL.bound (GL.units (trace s))) |})
    as (s' & Hcall & Harr & Hcount & Hlive & Hunits).
  { unfold CreateGLTexture.
    apply Z.eqb_neq in H3, H4. rewrite H3, H4.
    eexists. split; [reflexivity|]. split; [reflexivity|]. split; [reflexivity|].
    simpl. rewrite <- !app_assoc. rewrite live_textures_app, units_app. split; reflexivity. }
  assert (registry_ok s') as Hok'.
  { destruct Hok. split; [now rewrite Harr | now rewrite Hcount]. }
  exists s'. eexists. split; [exact Hcall|].
  split; [rewrite Hlive; now apply elem_of_union_l, elem_of_singleton_2|].
  split; [unfold GL.texture_on; rewrite Hunits; simpl; now rewrite lookup_insert_eq|].
  split; [apply (DestroyGLTextures_deletes s' Hok')|].
  simpl. rewrite live_textures_delete_records, Hlive, Harr, Hcount.
  fold (loaded_ids s). apply elem_of_difference. split; [|exact Hnot].
  now apply elem_of_union_l, elem_of_singleton_2.
Qed.

Lemma CreateGLTexture_unsupported_leaks_texture_witness :
  exists s' s'',
    CreateGLTexture (Some grey_image) 3 "textures/grey.png" "grey" two_loaded = Ok (false, s') /\
    DestroyGLTextures s' = Ok s'' /\
    Int.u32 3 ∈ live_textures (trace s'').
Proof.
  destruct (CreateGLTexture_unsupported_leaks_texture
              grey_image 3 "textures/grey.png" "grey" two_loaded)
    as (s' & s'' & Hcall & _ & _ & Hdel & Hlive).
  - split; vm_compute; [reflexivity | split; discriminate].
  - simpl. lia.
  - simpl. lia.
  - apply (bool_decide_eq_false_1 (Int.u32 3 ∈ loaded_ids two_loaded)).
    vm_compute. reflexivity.
  - exists s', s''. repeat split; assumption.
Defined.

Lemma find_None_not_loaded (s : SceneManager) (tag : string) :
  list_find (fun r => TEXTURE_INFO.tag r = tag)
            (take (Z.to_nat (m_loadedTextures s)) (m_textureIDs s)) = None ->
  tag ∉ loaded_tags s.
Proof.
  intros Hnone Hin. apply list_find_None in Hnone.
  apply list_elem_of_fmap in Hin as (r & -> & Hr).
  rewrite Forall_forall in Hnone. now apply (Hnone r Hr).
Qed.

(** X3. A later load does not move what was registered before: after a
    successful load under [tag], every other tag, and [tag] itself when it
    was already registered, resolves to the same ID and slot as before. *)
Theorem later_load_keeps_lookups
        (img : Image) (name : Z) (filename tag tag' : string) (s : SceneManager) :
  registry_ok s ->
  m_loadedTextures s < Z.of_nat TEXTURE_SLOTS ->
  colorChannels img = 3 \/ colorChannels img = 4 ->
  tag' <> tag \/ tag' ∈ loaded_tags s ->
  exists s',
    CreateGLTexture (Some img) name filename tag s = Ok (true, s') /\
    FindTextureID tag' s' = FindTextureID tag' s /\
    FindTextureSlot tag' s' = FindTextureSlot tag' s.
Proof.
  intros Hok Hlt Hch Htag.
  destruct (CreateGLTexture_supported img name filename tag s Hch) as [es ->].
  rewrite (register_texture_ok _ _ (emit es s) (emit_registry_ok es s Hok) Hlt).
  eexists. split; [reflexivity|].
  set (s' := with_textures _ _ _).
  assert (registry_ok s') as Hok'.
  { destruct Hok as [Hlen Hm]. split; simpl.
    - now rewrite length_insert.
    - unfold TEXTURE_SLOTS in *. lia. }
  rewrite (FindTextureID_search s' tag' Hok'), (FindTextureSlot_search s' tag' Hok').
  rewrite (FindTextureID_search s tag' Hok), (FindTextureSlot_search s tag' Hok).
  assert (list_find (fun r => TEXTURE_INFO.tag r = tag')
                    (take (Z.to_nat (m_loadedTextures s')) (m_textureIDs s'))
          = list_find (fun r => TEXTURE_INFO.tag r = tag')
                      (take (Z.to_nat (m_loadedTextures s)) (m_textureIDs s))) as ->; [|done].
  simpl. rewrite (loaded_after_register _ s Hok Hlt).
  destruct (list_find _ (take _ (m_textureIDs s))) as [[i r]|] eqn:Hfind.
  - apply list_find_app_Some. now left.
  - apply list_find_app_None. split; [exact Hfind|].
    destruct Htag as [Hne|Hin]; [|now apply find_None_not_loaded in Hfind].
    simpl. rewrite decide_False; [reflexivity|]. simpl. congruence.
Qed.

Lemma later_load_keeps_lookups_witness :
  exists s',
    CreateGLTexture (Some rgb_image) 3 "textures/t.jpg" "t0" two_loaded = Ok (true, s') /\
    FindTextureID "t0" s' = FindTextureID "t0" two_loaded /\
    FindTextureSlot "t0" s' = FindTextureSlot "t0" two_loaded.
Proof.
  apply (later_load_keeps_lookups rgb_image 3 "textures/t.jpg" "t0" "t0" two_loaded).
  - split; vm_compute; [reflexivity | split; discriminate].
  - vm_compute. reflexivity.
  - left. reflexivity.
  - right. apply (bool_decide_eq_true_1 ("t0" ∈ loaded_tags two_loaded)).
    vm_compute. reflexivity.
Defined.

(** X4. On a well-formed registry [FindTextureSlot] returns -1 exactly when
    no loaded texture carries the tag; any other result is a slot below the
    count of loaded textures whose record carries the tag, and
    [FindTextureID] returns the ID stored in that slot, converted to
    [int]. *)
Theorem FindTextureSlot_sound_complete (tag : string) (s : SceneManager) :
  registry_ok s ->
  exists slot,
    FindTextureSlot tag s = Ok slot /\
    (slot = -1 <-> tag ∉ loaded_tags s) /\
    (slot <> -1 ->
     0 <= slot < m_loadedTextures s /\
     exists r, m_textureIDs s !! Z.to_nat slot = Some r /\
               TEXTURE_INFO.tag r = tag /\
               FindTextureID tag s = Ok (Int.i32 (TEXTURE_INFO.ID r))).
Proof.
  intros Hok.
  rewrite (FindTextureSlot_search s tag Hok), (FindTextureID_search s tag Hok).
  destruct (list_find _ _) as [[i r]|] eqn:Hfind.
  - apply list_find_Some in Hfind as (Hr & Htag & _).
    apply lookup_take_Some in Hr as [Hr Hi].
    exists (Z.of_nat i). split; [reflexivity|]. split.
    + split; [lia|]. intros Hnot. exfalso. apply Hnot.
      unfold loaded_tags. rewrite <- Htag. apply list_elem_of_fmap_2.
      apply list_elem_of_lookup. exists i. now apply lookup_take_Some.
    + intros _. split; [lia|]. exists r. now rewrite Nat2Z.id.
  - exists (-1). split; [reflexivity|]. split; [|done].
    split; [intros _; now apply find_None_not_loaded | reflexivity].
Qed.

Lemma FindTextureSlot_sound_complete_witness :
  exists slot, FindTextureSlot "t1" two_loaded = Ok slot /\ 0 <= slot < 2.
Proof.
  destruct (FindTextureSlot_sound_complete "t1" two_loaded)
    as (slot & Hslot & Hiff & Hrange).
  - split; vm_compute; [reflexivity | split; discriminate].
  - exists slot. split; [exact Hslot|].
    assert (slot <> -1) as Hne.
    { intros Heq. apply (proj1 Hiff Heq).
      apply (bool_decide_eq_true_1 ("t1" ∈ loaded_tags two_loaded)).
      vm_compute. reflexivity. }
    destruct (Hrange Hne) as [Hr _]. exact Hr.
Defined.

(** X5. A newly constructed manager is well formed and resolves nothing:
    every tag, the placeholder ["/0"] of the unused entries included,
    yields -1 from both texture lookups and false from [FindMaterial], and
    binding or destroying the textures makes no GL call. *)
Theorem new_manager_resolves_nothing
        (sh : option ShaderManager.t) (tag : string) (material0 : OBJECT_MATERIAL.t) :
  registry_ok (SceneManager_new sh) /\
  FindTextureID tag (SceneManager_new sh) = Ok (-1) /\
  FindTextureSlot tag (SceneManager_new sh) = Ok (-1) /\
  FindMaterial tag material0 (SceneManager_new sh) = Ok (false, material0) /\
  BindGLTextures (SceneManager_new sh) = Ok (SceneManager_new sh) /\
  DestroyGLTextures (SceneManager_new sh) = Ok (SceneManager_new sh).
Proof.
  split; [apply SceneManager_new_ok|]. repeat split; reflexivity.
Qed.

(** * Binding the textures to their units *)

Lemma bind_calls_keep_live (l : list TEXTURE_INFO.t) : forall (f : nat -> Z) (live : gset Z),
  foldl live_step live
        (concat (imap (fun j r => [glActiveTexture (f j);
                                   glBindTexture GL_TEXTURE_2D (TEXTURE_INFO.ID r)]) l))
  = live.
Proof.
  induction l as [|x l IH]; intros f live; [reflexivity|].
  simpl. apply (IH (fun j => f (S j))).
Qed.

Lemma bind_calls_units (l : list TEXTURE_INFO.t) : forall (k : nat) (u : GL.Units),
  (forall j r, l !! j = Some r ->
     GL.bound (foldl GL.step u
                 (concat (imap (fun j r => [glActiveTexture (Z.of_nat (k + j));
                                            glBindTexture GL_TEXTURE_2D (TEXTURE_INFO.ID r)]) l)))
       !! Z.of_nat (k + j) = Some (TEXTURE_INFO.ID r)) /\
  (forall unit, unit < Z.of_nat k \/ Z.of_nat (k + length l) <= unit ->
     GL.bound (foldl GL.step u
                 (concat (imap (fun j r => [glActiveTexture (Z.of_nat (k + j));
                                            glBindTexture GL_TEXTURE_2D (TEXTURE_INFO.ID r)]) l)))
       !! unit = GL.bound u !! unit) /\
  GL.active (foldl GL.step u
               (concat (imap (fun j r => [glActiveTexture (Z.of_nat (k + j));
                                          glBindTexture GL_TEXTURE_2D (TEXTURE_INFO.ID r)]) l)))
  = match l with [] => GL.active u | _ => Z.of_nat (k + length l) - 1 end.
Proof.
  induction l as [|x l IH]; intros k u.
  - simpl. split; [intros j r Hr; now rewrite lookup_nil in Hr|]. split; reflexivity.
  - simpl.
    rewrite (imap_ext _ (fun j r => [glActiveTexture (Z.of_nat (S k + j));
                                     glBindTexture GL_TEXTURE_2D (TEXTURE_INFO.ID r)]))
      by (intros j r _; simpl; now rewrite Nat.add_succ_r).
    set (u1 := {| GL.active := Z.of_nat (k + 0);
                  GL.bound := <[Z.of_nat (k + 0) := TEXTURE_INFO.ID x]> (GL.bound u) |}).
    destruct (IH (S k) u1) as (Hin & Hout & Hact).
    split; [|split].
    + intros [|j] r Hr.
      * injection Hr as <-. rewrite Hout by lia. unfold u1. simpl.
        apply lookup_insert_eq.
      * replace (k + S j)%nat with (S k + j)%nat by lia. now apply Hin.
    + intros unit Hunit. rewrite Hout by lia. unfold u1. simpl.
      apply lookup_insert_ne. lia.
    + rewrite Hact. unfold u1. simpl. destruct l; simpl; lia.
Qed.

Lemma Units_eq (a b : GL.Units) :
  GL.active a = GL.active b -> GL.bound a = GL.bound b -> a = b.
Proof. destruct a, b. simpl. now intros -> ->. Qed.

Lemma BindGLTextures_calls (s : SceneManager) :
  registry_ok s ->
  BindGLTextures s =
  Ok (emit (concat (imap (fun j r => [glActiveTexture (Z.of_nat (0 + j));
                                      glBindTexture GL_TEXTURE_2D (TEXTURE_INFO.ID r)])
                         (take (Z.to_nat (m_loadedTextures s)) (m_textureIDs s))))
           s).
Proof.
  intros Hok. unfold BindGLTextures.
  apply (for_loaded_emits s (fun i r => [glActiveTexture i;
                                         glBindTexture GL_TEXTURE_2D (TEXTURE_INFO.ID r)]) Hok).
Qed.

Lemma bind_calls_texture_on (s : SceneManager) (i : nat) (r : TEXTURE_INFO.t) :
  Z.of_nat i < m_loadedTextures s ->
  m_textureIDs s !! i = Some r ->
  GL.texture_on (Z.of_nat i)
    (trace s ++ concat (imap (fun j r => [glActiveTexture (Z.of_nat (0 + j));
                                          glBindTexture GL_TEXTURE_2D (TEXTURE_INFO.ID r)])
                             (take (Z.to_nat (m_loadedTextures s)) (m_textureIDs s))))
  = TEXTURE_INFO.ID r.
Proof.
  intros Hi Hr. unfold GL.texture_on. rewrite units_app.
  destruct (bind_calls_units (take (Z.to_nat (m_loadedTextures s)) (m_textureIDs s))
                             0 (GL.units (trace s))) as (Hin & _ & _).
  assert (take (Z.to_nat (m_loadedTextures s)) (m_textureIDs s) !! i = Some r) as Hlook.
  { rewrite lookup_take_lt by lia. exact Hr. }
  exact (f_equal (default 0) (Hin i r Hlook)).
Qed.

(** X6. On a well-formed registry [BindGLTextures] returns, leaves the
    registry, the materials and the set of live textures as they were, and
    afterwards every loaded slot [i] has its record's texture bound on
    texture unit [i]. *)
Theorem BindGLTextures_binds_slots (s : SceneManager) :
  registry_ok s ->
  exists s',
    BindGLTextures s = Ok s' /\
    m_textureIDs s' = m_textureIDs s /\
    m_loadedTextures s' = m_loadedTextures s /\
    m_objectMaterials s' = m_objectMaterials s /\
    m_pShaderManager s' = m_pShaderManager s /\
    live_textures (trace s') = live_textures (trace s) /\
    forall (i : nat) (r : TEXTURE_INFO.t),
      Z.of_nat i < m_loadedTextures s ->
      m_textureIDs s !! i = Some r ->
      GL.texture_on (Z.of_nat i) (trace s') = TEXTURE_INFO.ID r.
Proof.
  intros Hok. rewrite (BindGLTextures_calls s Hok).
  eexists. split; [reflexivity|]. do 4 (split; [reflexivity|]).
  simpl. rewrite live_textures_app.
  split; [apply bind_calls_keep_live|].
  intros i r Hi Hr. now apply bind_calls_texture_on.
Qed.

Lemma BindGLTextures_binds_slots_witness :
  exists s',
    BindGLTextures two_loaded = Ok s' /\
    GL.texture_on 1 (trace s') = 2.
Proof.
  destruct (BindGLTextures_binds_slots two_loaded) as (s' & Hcall & _ & _ & _ & _ & _ & Hunit).
  - split; vm_compute; [reflexivity | split; discriminate].
  - exists s'. split; [exact Hcall|].
    apply (Hunit 1%nat (TEXTURE_INFO.Make "t1" 2)).
    + vm_compute. reflexivity.
    + vm_compute. reflexivity.
Defined.

(** X7. Binding again changes nothing: on a well-formed registry a second
    [BindGLTextures] leaves every unit's binding and the selected unit as
    the first call left them. *)
Theorem BindGLTextures_twice (s : SceneManager) :
  registry_ok s ->
  exists s1 s2,
    BindGLTextures s = Ok s1 /\
    BindGLTextures s1 = Ok s2 /\
    GL.units (trace s2) = GL.units (trace s1).
Proof.
  intros Hok.
  rewrite (BindGLTextures_calls s Hok).
  eexists. eexists. split; [reflexivity|].
  split; [apply (BindGLTextures_calls (emit _ s) (emit_registry_ok _ s Hok))|].
  simpl. rewrite !units_app.
  set (l := take (Z.to_nat (m_loadedTextures s)) (m_textureIDs s)).
  set (u := GL.units (trace s)).
  destruct (bind_calls_units l 0 u) as (Hin1 & Hout1 & Hact1).
  set (u1 := foldl GL.step u _) in *.
  destruct (bind_calls_units l 0 u1) as (Hin2 & Hout2 & Hact2).
  set (u2 := foldl GL.step u1 _) in *.
  assert (GL.active u2 = GL.active u1) as Hact.
  { rewrite Hact2, Hact1. now destruct l. }
  assert (GL.bound u2 = GL.bound u1) as Hbound.
  { apply map_eq. intros unit.
    destruct (decide (0 <= unit < Z.of_nat (length l))) as [Hunit|Hunit].
    - destruct (lookup_lt_is_Some_2 l (Z.to_nat unit)) as [r Hr]; [lia|].
      replace unit with (Z.of_nat (0 + Z.to_nat unit)) by lia.
      now rewrite (Hin1 _ r Hr), (Hin2 _ r Hr).
    - apply Hout2. simpl. lia. }
  now apply Units_eq.
Qed.

Lemma BindGLTextures_twice_witness :
  exists s1 s2,
    BindGLTextures two_loaded = Ok s1 /\
    BindGLTextures s1 = Ok s2 /\
    GL.units (trace s2) = GL.units (trace s1).
Proof.
  apply (BindGLTextures_twice two_loaded).
  split; vm_compute; [reflexivity | split; discriminate].
Defined.

(** * Further properties of the uniform bridge *)




Lemma with_shader_None f (s : SceneManager) :
  m_pShaderManager s = None -> with_shader f s = s.
Proof. destruct s. simpl. intros ->. reflexivity. Qed.

(** X9. Without a shader program the uniform bridge does nothing:
    [SetTransformations], [SetShaderColor], [SetTextureUVScale] and
    [SetupSceneLights] hand the manager back unchanged, and
    [SetShaderTexture] returns it unchanged without looking the tag up. *)
Theorem null_shader_manager_noops `{Libm}
        (scaleXYZ positionXYZ : Glm.vec3) (xd yd zd r g b a u v : float)
        (tag : string) (s : SceneManager) :
  m_pShaderManager s = None ->
  SetTransformations scaleXYZ xd yd zd positionXYZ s = s /\
  SetShaderColor r g b a s = s /\
  SetTextureUVScale u v s = s /\
  SetupSceneLights s = s /\
  SetShaderTexture tag s = Ok s.
Proof.
  intros Hnull.
  unfold SetTransformations, SetShaderColor, SetTextureUVScale, SetupSceneLights,
    SetShaderTexture.
  rewrite !(with_shader_None _ s Hnull), Hnull. repeat split.
Qed.

Lemma null_shader_manager_noops_witness :
  SetShaderColor F32.one F32.zero F32.zero F32.one (SceneManager_new None)
  = SceneManager_new None /\
  SetShaderTexture "floor" (SceneManager_new None) = Ok (SceneManager_new None).
Proof.
  destruct (@null_shader_manager_noops taylor_libm
              (Glm.Vec3 F32.one F32.one F32.one) (Glm.Vec3 F32.zero F32.zero F32.zero)
              F32.zero F32.zero F32.zero F32.one F32.zero F32.zero F32.one F32.one F32.one
              "floor" (SceneManager_new None))
    as (_ & Hcolor & _ & _ & Htex).
  - reflexivity.
  - split; assumption.
Defined.

(** X10. [SetShaderMaterial] has no NULL test: without a shader program it
    dereferences the null pointer whenever the material table is non-empty,
    for every tag, and returns without effect only when the table is
    empty. *)
Theorem SetShaderMaterial_null_shader
        (tag : string) (material0 : OBJECT_MATERIAL.t) (s : SceneManager) :
  m_pShaderManager s = None ->
  SetShaderMaterial tag material0 s
  = match m_objectMaterials s with [] => Ok s | _ => Fault end.
Proof.
  intros Hnull. unfold SetShaderMaterial. rewrite FindMaterial_search.
  destruct (m_objectMaterials s) as [|m ms]; [reflexivity|].
  simpl. now rewrite Hnull.
Qed.

Lemma SetShaderMaterial_null_shader_witness :
  SetShaderMaterial "deskMaterial" blank_material (LoadSceneMaterials (SceneManager_new None))
  = Fault.
Proof.
  apply (SetShaderMaterial_null_shader "deskMaterial" blank_material
           (LoadSceneMaterials (SceneManager_new None))).
  reflexivity.
Defined.

(** * Further properties of the material table *)

(** With a shader program and a non-empty table, [SetShaderMaterial]
    returns and writes the five fields of the material [FindMaterial]
    hands back. *)
Lemma SetShaderMaterial_writes (tag : string) (material0 : OBJECT_MATERIAL.t)
      (s : SceneManager) (sh : ShaderManager.t) (out : OBJECT_MATERIAL.t) :
  m_pShaderManager s = Some sh ->
  FindMaterial tag material0 s = Ok (true, out) ->
  exists s',
    SetShaderMaterial tag material0 s = Ok s' /\
    uniform "material.ambientColor" s' = Some (UVec3 (OBJECT_MATERIAL.ambientColor out)) /\
    uniform "material.ambientStrength" s'
    = Some (UFloat (OBJECT_MATERIAL.ambientStrength out)) /\
    uniform "material.diffuseColor" s' = Some (UVec3 (OBJECT_MATERIAL.diffuseColor out)) /\
    uniform "material.specularColor" s' = Some (UVec3 (OBJECT_MATERIAL.specularColor out)) /\
    uniform "material.shininess" s' = Some (UFloat (OBJECT_MATERIAL.shininess out)).
Proof.
  intros Hsh Hfind. unfold SetShaderMaterial.
  assert (m_objectMaterials s <> []) as Hne.
  { intros Hnil. rewrite (FindMaterial_empty_false _ _ _ Hnil) in Hfind. discriminate. }
  assert ((0 <? Z.of_nat (length (m_objectMaterials s))) = true) as ->.
  { apply Z.ltb_lt. destruct (m_objectMaterials s); [done | simpl; lia]. }
  rewrite Hfind. simpl. rewrite Hsh.
  eexists. split; [reflexivity|].
  rewrite !(uniform_with_shader _ _ s sh Hsh).
  unfold setFloatValue, setVec3Value.
  repeat split.
  - rewrite !lookup_insert_ne by discriminate. apply lookup_insert_eq.
  - rewrite !lookup_insert_ne by discriminate. apply lookup_insert_eq.
  - rewrite !lookup_insert_ne by discriminate. apply lookup_insert_eq.
  - rewrite !lookup_insert_ne by discriminate. apply lookup_insert_eq.
  - apply lookup_insert_eq.
Qed.

(** X11. With a shader program and a non-empty table, a tag that no stored
    material carries still makes [SetShaderMaterial] write the five
    material uniforms: it writes the fields of its own local variable,
    which nothing has assigned. *)
Theorem SetShaderMaterial_unmatched_writes_local
        (tag : string) (material0 : OBJECT_MATERIAL.t)
        (s : SceneManager) (sh : ShaderManager.t) :
  m_pShaderManager s = Some sh ->
  m_objectMaterials s <> [] ->
  tag ∉ (OBJECT_MATERIAL.tag <$> m_objectMaterials s) ->
  exists s',
    SetShaderMaterial tag material0 s = Ok s' /\
    uniform "material.ambientColor" s'
    = Some (UVec3 (OBJECT_MATERIAL.ambientColor material0)) /\
    uniform "material.ambientStrength" s'
    = Some (UFloat (OBJECT_MATERIAL.ambientStrength material0)) /\
    uniform "material.diffuseColor" s'
    = Some (UVec3 (OBJECT_MATERIAL.diffuseColor material0)) /\
    uniform "material.specularColor" s'
    = Some (UVec3 (OBJECT_MATERIAL.specularColor material0)) /\
    uniform "material.shininess" s' = Some (UFloat (OBJECT_MATERIAL.shininess material0)).
Proof.
  intros Hsh Hne Hnot.
  apply (SetShaderMaterial_writes tag material0 s sh material0 Hsh).
  rewrite FindMaterial_search.
  assert (list_find (fun m => OBJECT_MATERIAL.tag m = tag) (m_objectMaterials s) = None) as ->.
  { apply list_find_None, Forall_forall. intros m Hm Htag.
    apply Hnot. rewrite <- Htag. now apply list_elem_of_fmap_2. }
  now destruct (m_objectMaterials s).
Qed.

Lemma SetShaderMaterial_unmatched_writes_local_witness :
  exists s',
    SetShaderMaterial "glassMaterial" blank_material scene_materials = Ok s' /\
    uniform "material.shininess" s' = Some (UFloat F32.zero).
Proof.
  destruct (SetShaderMaterial_unmatched_writes_local
              "glassMaterial" blank_material scene_materials ∅)
    as (s' & Hcall & _ & _ & _ & _ & Hshine).
  - reflexivity.
  - vm_compute. discriminate.
  - not_member.
  - exists s'. split; assumption.
Defined.

(** X12. With a shader program, a tag carried by a stored material makes
    [SetShaderMaterial] write the five fields of the first such material,
    whatever the local variable held. *)
Theorem SetShaderMaterial_matched_writes_first
        (tag : string) (material0 m : OBJECT_MATERIAL.t) (i : nat)
        (s : SceneManager) (sh : ShaderManager.t) :
  m_pShaderManager s = Some sh ->
  m_objectMaterials s !! i = Some m ->
  OBJECT_MATERIAL.tag m = tag ->
  (forall j m', (j < i)%nat -> m_objectMaterials s !! j = Some m' ->
                OBJECT_MATERIAL.tag m' <> tag) ->
  exists s',
    SetShaderMaterial tag material0 s = Ok s' /\
    uniform "material.ambientColor" s' = Some (UVec3 (OBJECT_MATERIAL.ambientColor m)) /\
    uniform "material.ambientStrength" s'
    = Some (UFloat (OBJECT_MATERIAL.ambientStrength m)) /\
    uniform "material.diffuseColor" s' = Some (UVec3 (OBJECT_MATERIAL.diffuseColor m)) /\
    uniform "material.specularColor" s' = Some (UVec3 (OBJECT_MATERIAL.specularColor m)) /\
    uniform "material.shininess" s' = Some (UFloat (OBJECT_MATERIAL.shininess m)).
Proof.
  intros Hsh Hm Htag Hfirst.
  apply (SetShaderMaterial_writes tag material0 s sh (copy_material m material0) Hsh).
  now apply (FindMaterial_found tag material0 m i s).
Qed.

Lemma SetShaderMaterial_matched_writes_first_witness :
  exists s',
    SetShaderMaterial "deskMaterial" blank_material scene_materials = Ok s' /\
    uniform "material.shininess" s' = Some (UFloat (F32.of_Z 16)).
Proof.
  destruct (SetShaderMaterial_matched_writes_first
              "deskMaterial" blank_material deskMaterial 1 scene_materials ∅)
    as (s' & Hcall & _ & _ & _ & _ & Hshine).
  - reflexivity.
  - reflexivity.
  - reflexivity.
  - intros j m' Hj Hm'. assert (j = 0%nat) as -> by lia.
    vm_compute in Hm'. injection Hm' as <-. discriminate.
  - exists s'. split; assumption.
Defined.

(** X13. When a stored material carries the tag, [FindMaterial] returns
    true and copies the five value fields of the first such material into
    the caller's material, whose own tag field it leaves as it was; later
    materials with the same tag are never reached. *)
Theorem FindMaterial_copies_first_match
        (tag : string) (material0 m : OBJECT_MATERIAL.t) (i : nat) (s : SceneManager) :
  m_objectMaterials s !! i = Some m ->
  OBJECT_MATERIAL.tag m = tag ->
  (forall j m', (j < i)%nat -> m_objectMaterials s !! j = Some m' ->
                OBJECT_MATERIAL.tag m' <> tag) ->
  exists out,
    FindMaterial tag material0 s = Ok (true, out) /\
    OBJECT_MATERIAL.tag out = OBJECT_MATERIAL.tag material0 /\
    OBJECT_MATERIAL.ambientColor out = OBJECT_MATERIAL.ambientColor m /\
    OBJECT_MATERIAL.ambientStrength out = OBJECT_MATERIAL.ambientStrength m /\
    OBJECT_MATERIAL.diffuseColor out = OBJECT_MATERIAL.diffuseColor m /\
    OBJECT_MATERIAL.specularColor out = OBJECT_MATERIAL.specularColor m /\
    OBJECT_MATERIAL.shininess out = OBJECT_MATERIAL.shininess m.
Proof.
  intros Hm Htag Hfirst. exists (copy_material m material0).
  split; [now apply (FindMaterial_found tag material0 m i s)|].
  repeat split.
Qed.

Lemma FindMaterial_copies_first_match_witness :
  exists out,
    FindMaterial "deskMaterial" blank_material scene_materials = Ok (true, out) /\
    OBJECT_MATERIAL.tag out = "" /\
    OBJECT_MATERIAL.shininess out = F32.of_Z 16.
Proof.
  destruct (FindMaterial_copies_first_match
              "deskMaterial" blank_material deskMaterial 1 scene_materials)
    as (out & Hcall & Htag & _ & _ & _ & _ & Hshine).
  - reflexivity.
  - reflexivity.
  - intros j m' Hj Hm'. assert (j = 0%nat) as -> by lia.
    vm_compute in Hm'. injection Hm' as <-. discriminate.
  - exists out. repeat split; assumption.
Defined.

(** X14. The boolean [FindMaterial] returns does not depend on the tag: it
    is false on an empty table and true on every non-empty one. *)
Theorem FindMaterial_result_ignores_tag
        (tag : string) (material0 : OBJECT_MATERIAL.t) (s : SceneManager) :
  exists out,
    FindMaterial tag material0 s
    = Ok (bool_decide (m_objectMaterials s <> []), out).
Proof.
  rewrite FindMaterial_search.
  exists (match list_find (fun m => OBJECT_MATERIAL.tag m = tag) (m_objectMaterials s) with
          | Some (_, m) => copy_material m material0
          | None => material0
          end).
  destruct (m_objectMaterials s); reflexivity.
Qed.

(** * Loading the scene's textures *)

Lemma load_texture_step (images : string -> option Image) (names : nat -> Z)
      (k : nat) (file tag : string) (s : SceneManager) :
  registry_ok s ->
  m_loadedTextures s < Z.of_nat TEXTURE_SLOTS ->
  exists s',
    load_texture images names k file tag s = Ok s' /\
    registry_ok s' /\
    m_loadedTextures s <= m_loadedTextures s' <= m_loadedTextures s + 1 /\
    (forall j : nat, Z.of_nat j < m_loadedTextures s ->
                     m_textureIDs s' !! j = m_textureIDs s !! j).
Proof.
  intros Hok Hlt. unfold load_texture.
  destruct (load_below_capacity (images file) (names k) file tag s Hok Hlt)
    as (b & s' & -> & Hok' & _ & Hcount & Hkeep & _).
  exists s'. split; [reflexivity|]. split; [exact Hok'|].
  split; [destruct b; lia | exact Hkeep].
Qed.

(** X15. [LoadSceneTextures] fits five more textures: from a well-formed
    registry with at most 11 loaded textures it returns whatever the five
    files decode to, the registry stays well formed, the count grows by at
    most five, and the records loaded before are kept. *)
Theorem LoadSceneTextures_within_capacity
        (images : string -> option Image) (names : nat -> Z) (s : SceneManager) :
  registry_ok s ->
  m_loadedTextures s + 5 <= Z.of_nat TEXTURE_SLOTS ->
  exists s',
    LoadSceneTextures images names s = Ok s' /\
    registry_ok s' /\
    m_loadedTextures s <= m_loadedTextures s' <= m_loadedTextures s + 5 /\
    (forall j : nat, Z.of_nat j < m_loadedTextures s ->
                     m_textureIDs s' !! j = m_textureIDs s !! j).
Proof.
  intros Hok Hroom. unfold LoadSceneTextures.
  destruct (load_texture_step images names 0 "textures/Wood-Floor_texture2.jpg" "floor" s)
    as (s1 & -> & Hok1 & Hc1 & Hk1); [exact Hok | lia |]. simpl.
  destruct (load_texture_step images names 1 "textures/Monitor-Screen_texture.jpg" "screen" s1)
    as (s2 & -> & Hok2 & Hc2 & Hk2); [exact Hok1 | lia |]. simpl.
  destruct (load_texture_step images names 2 "textures/Desk_texture2.jpg" "desk" s2)
    as (s3 & -> & Hok3 & Hc3 & Hk3); [exact Hok2 | lia |]. simpl.
  destruct (load_texture_step images names 3 "textures/Keyboard_texture.jpg" "keyboard" s3)
    as (s4 & -> & Hok4 & Hc4 & Hk4); [exact Hok3 | lia |]. simpl.
  destruct (load_texture_step images names 4 "textures/glass_texture.jpg" "glass" s4)
    as (s5 & -> & Hok5 & Hc5 & Hk5); [exact Hok4 | lia |]. simpl.
  rewrite (BindGLTextures_calls s5 Hok5).
  eexists. split; [reflexivity|]. split; [exact Hok5|]. split; [simpl; lia|].
  intros j Hj. simpl.
  rewrite Hk5, Hk4, Hk3, Hk2, Hk1 by lia. reflexivity.
Qed.

Lemma LoadSceneTextures_within_capacity_witness :
  exists s',
    LoadSceneTextures all_rgb count_from_1 two_loaded = Ok s' /\
    registry_ok s' /\
    2 <= m_loadedTextures s' <= 7.
Proof.
  destruct (LoadSceneTextures_within_capacity all_rgb count_from_1 two_loaded)
    as (s' & Hcall & Hok & Hcount & _).
  - split; vm_compute; [reflexivity | split; discriminate].
  - vm_compute. discriminate.
  - exists s'. split; [exact Hcall|]. split; [exact Hok|].
    change (m_loadedTextures two_loaded) with 2 in Hcount. lia.
Defined.

(** * Textures that outlive the registry *)

Lemma new_manager_no_stray (sh : option ShaderManager.t) :
  no_stray_textures (SceneManager_new sh).
Proof. unfold no_stray_textures. simpl. apply empty_subseteq. Qed.

(** X16. Loads that decode to 3 or 4 channels, and loads that fail to
    decode, keep every live texture registered: if all live texture names
    belong to loaded records before such a load below capacity, they do
    afterwards. *)
Theorem supported_loads_keep_no_stray
        (image : option Image) (name : Z) (filename tag : string) (s : SceneManager) :
  registry_ok s ->
  m_loadedTextures s < Z.of_nat TEXTURE_SLOTS ->
  no_stray_textures s ->
  (forall img, image = Some img -> colorChannels img = 3 \/ colorChannels img = 4) ->
  exists (b : bool) (s' : SceneManager),
    CreateGLTexture image name filename tag s = Ok (b, s') /\
    no_stray_textures s'.
Proof.
  intros Hok Hlt Hstray Himg. destruct image as [img|].
  - destruct (CreateGLTexture_supported_calls img name filename tag s (Himg img eq_refl))
      as (es & -> & Hlive & _).
    rewrite (register_texture_ok _ _ (emit es s) (emit_registry_ok es s Hok) Hlt).
    eexists true, _. split; [reflexivity|].
    unfold no_stray_textures, loaded_ids. simpl.
    rewrite live_textures_app, Hlive.
    rewrite (loaded_ids_after_register tag (Int.u32 name) s Hok Hlt).
    intros x Hx. apply elem_of_union in Hx as [Hx|Hx]; apply elem_of_union.
    + now right.
    + left. now apply Hstray.
  - eexists false, _. split; [reflexivity|].
    unfold no_stray_textures, loaded_ids. simpl.
    rewrite <- app_assoc, live_textures_app. simpl. exact Hstray.
Qed.

Lemma supported_loads_keep_no_stray_witness :
  exists (b : bool) (s' : SceneManager),
    CreateGLTexture (Some rgb_image) 1 "textures/Wood-Floor_texture2.jpg" "floor" fresh
    = Ok (b, s') /\
    no_stray_textures s'.
Proof.
  apply (supported_loads_keep_no_stray
           (Some rgb_image) 1 "textures/Wood-Floor_texture2.jpg" "floor" fresh).
  - split; vm_compute; [reflexivity | split; discriminate].
  - vm_compute. reflexivity.
  - unfold no_stray_textures. simpl. apply empty_subseteq.
  - intros img [= <-]. left. reflexivity.
Defined.

(** X17. When every live texture name belongs to a loaded record,
    [DestroyGLTextures] leaves no texture live. *)
Theorem DestroyGLTextures_frees_everything (s : SceneManager) :
  registry_ok s ->
  no_stray_textures s ->
  exists s',
    DestroyGLTextures s = Ok s' /\
    live_textures (trace s') = ∅.
Proof.
  intros Hok Hstray. rewrite (DestroyGLTextures_deletes s Hok).
  eexists. split; [reflexivity|].
  simpl. rewrite live_textures_delete_records.
  now apply subseteq_empty_difference_L.
Qed.

Lemma DestroyGLTextures_frees_everything_witness :
  exists s',
    DestroyGLTextures two_loaded = Ok s' /\
    live_textures (trace s') = ∅.
Proof.
  apply (DestroyGLTextures_frees_everything two_loaded).
  - split; vm_compute; [reflexivity | split; discriminate].
  - apply (bool_decide_eq_true_1 (live_textures (trace two_loaded) ⊆ loaded_ids two_loaded)).
    vm_compute. reflexivity.
Defined.

(** * What each uniform write leaves alone *)

Lemma uniform_with_shader_other (name key : string) (v : Uniform) (s : SceneManager) :
  name <> key ->
  uniform name (with_shader (fun sh => <[key := v]> sh) s) = uniform name s.
Proof.
  intros Hne. unfold uniform, with_shader. simpl.
  destruct (m_pShaderManager s) as [sh|]; [|reflexivity].
  simpl. now apply lookup_insert_ne.
Qed.

Lemma uniform_with_shader_other2 (name k1 k2 : string) (v1 v2 : Uniform) (s : SceneManager) :
  name <> k1 -> name <> k2 ->
  uniform name (with_shader (fun sh => <[k2 := v2]> (<[k1 := v1]> sh)) s) = uniform name s.
Proof.
  intros H1 H2. unfold uniform, with_shader. simpl.
  destruct (m_pShaderManager s) as [sh|]; [|reflexivity].
  simpl. now rewrite !lookup_insert_ne by congruence.
Qed.

(** X18. Each write of the uniform bridge touches its own uniforms only,
    so what an earlier call set stays in force: [SetTransformations] keeps
    every uniform but [model], [SetShaderColor] every uniform but
    [bUseTexture] and [objectColor] (the sampler set by an earlier
    [SetShaderTexture] included), [SetTextureUVScale] every uniform but
    [UVscale], and [SetShaderTexture] every uniform but [bUseTexture] and
    [objectTexture]. *)
Theorem uniform_bridge_frame `{Libm}
        (name tag : string) (scaleXYZ positionXYZ : Glm.vec3)
        (xd yd zd r g b a u v : float) (s : SceneManager) :
  (name <> g_ModelName ->
   uniform name (SetTransformations scaleXYZ xd yd zd positionXYZ s) = uniform name s) /\
  (name <> g_UseTextureName -> name <> g_ColorValueName ->
   uniform name (SetShaderColor r g b a s) = uniform name s) /\
  (name <> "UVscale" ->
   uniform name (SetTextureUVScale u v s) = uniform name s) /\
  (name <> g_UseTextureName -> name <> g_TextureValueName ->
   forall s', SetShaderTexture tag s = Ok s' -> uniform name s' = uniform name s).
Proof.
  split; [|split; [|split]].
  - intros Hne. now apply uniform_with_shader_other.
  - intros H1 H2. now apply uniform_with_shader_other2.
  - intros Hne. now apply uniform_with_shader_other.
  - intros H1 H2 s'. unfold SetShaderTexture.
    destruct (m_pShaderManager s) as [sh|] eqn:Hsh; [|now intros [= <-]].
    destruct (FindTextureSlot _ _) as [slot| |]; simpl; [|discriminate..].
    intros [= <-].
    etransitivity.
    + apply (uniform_with_shader_other name g_TextureValueName (USampler2D slot)). exact H2.
    + apply (uniform_with_shader_other name g_UseTextureName (UInt 1)). exact H1.
Qed.

Lemma uniform_bridge_frame_witness :
  uniform g_TextureValueName (SetShaderColor F32.one F32.one F32.one F32.one two_loaded)
  = uniform g_TextureValueName two_loaded.
Proof.
  destruct (@uniform_bridge_frame taylor_libm g_TextureValueName "t1"
              (Glm.Vec3 F32.one F32.one F32.one) (Glm.Vec3 F32.zero F32.zero F32.zero)
              F32.zero F32.zero F32.zero F32.one F32.one F32.one F32.one F32.one F32.one
              two_loaded)
    as (_ & Hcolor & _).
  apply Hcolor; discriminate.
Defined.

(** * The lights *)


